(** * DICOM wrappers

    A shallow embedding of [nibabel/dicom/dicomwrappers.py]: the [Wrapper],
    [SiemensWrapper] and [MosaicWrapper] classes, their cached geometric
    attributes, the affine and data pipelines and the
    [maybe_same_volume_as] heuristic.

    Conventions of the embedding.
    - The cached attributes ([one_time] properties) are pure functions of the
      wrapped record, so caching is invisible and each attribute is a function
      of the wrapper.
    - An attribute that can only yield a value or [None] returns an [option];
      code that may raise returns a [result].
    - Numbers are kept abstract behind the interface [Num]: every general
      theorem holds for any interpretation of the arithmetic, in particular for
      IEEE binary64 ([NumFloat]) and for exact rationals ([NumQ]).
    - numpy arrays of fixed small shape are nested tuples, row by row; pixel
      blocks are a shape with a row-major buffer.
    - Python and numpy behave as at the time the module was written: an array
      compared with [None] is [False], so [None in (a, b)] and
      [(a, b) == (None, None)] test for [None] only; a float with an integral
      value is accepted as a dimension by [reshape]; [np.allclose] of an
      array and [None] raises, modelled as [TypeError]. *)

From Stdlib Require Import ZArith NArith QArith Qabs Qround Floats String List Bool Lia PeanoNat.
From Stdlib Require Import QNsatz Lqa.
Import ListNotations.

Set Implicit Arguments.

(** ** Exceptions and results *)

Inductive exn : Type :=
| WrapperError (msg : string)
| CSAError (msg : string)
| AssertionError
| AttributeError
| TypeError
| ValueError
| IndexError.

Inductive result (A : Type) : Type :=
| Ok (a : A)
| Raise (e : exn).

Arguments Ok {A} a.
Arguments Raise {A} e.

Definition bind {A B : Type} (c : result A) (k : A -> result B) : result B :=
  match c with
  | Ok a => k a
  | Raise e => Raise e
  end.

Notation "x <- c ;; k" := (bind c (fun x => k))
  (at level 61, c at next level, right associativity).

Definition is_ok {A : Type} (c : result A) : bool :=
  match c with Ok _ => true | Raise _ => false end.

(** ** The numeric interface

    [of_Z] injects a Python integer, [lit] is the value of a decimal literal,
    [to_int] is the truncation numpy applies to a float used as a dimension
    ([None] where Python would refuse the conversion). *)

Class Num (F : Type) : Type := {
  of_Z : Z -> F;
  lit : Q -> F;
  fadd : F -> F -> F;
  fsub : F -> F -> F;
  fmul : F -> F -> F;
  fdiv : F -> F -> F;
  fabs : F -> F;
  feqb : F -> F -> bool;
  fleb : F -> F -> bool;
  isfinite : F -> bool;
  to_int : F -> option Z
}.

Declare Scope num_scope.
Delimit Scope num_scope with num.
Infix "+" := fadd : num_scope.
Infix "-" := fsub : num_scope.
Infix "*" := fmul : num_scope.
Infix "/" := fdiv : num_scope.

Definition of_N {F : Type} `{Num F} (n : N) : F := of_Z (Z.of_N n).

(** Exact rationals, kept in lowest terms so that equal values are equal terms. *)

Definition Qtrunc (q : Q) : Z := Z.quot (Qnum q) (Zpos (Qden q)).

#[export] Instance NumQ : Num Q := {
  of_Z := fun z => inject_Z z;
  lit := fun q => Qred q;
  fadd := fun a b => Qred (Qplus a b);
  fsub := fun a b => Qred (Qminus a b);
  fmul := fun a b => Qred (Qmult a b);
  fdiv := fun a b => Qred (Qdiv a b);
  fabs := fun a => Qred (Qabs a);
  feqb := Qeq_bool;
  fleb := Qle_bool;
  isfinite := fun _ => true;
  to_int := fun q => Some (Qtrunc q)
}.

(** IEEE binary64, the numbers Python and numpy compute with. *)

Definition float_of_Z (z : Z) : float :=
  SF2Prim (binary_normalize prec emax z 0 false).

Definition float_to_int (f : float) : option Z :=
  match Prim2SF f with
  | S754_zero _ => Some 0%Z
  | S754_finite s m e =>
      let v := if (0 <=? e)%Z then (Zpos m * 2 ^ e)%Z
               else (Zpos m / 2 ^ (- e))%Z in
      Some (if s then (- v)%Z else v)
  | S754_infinity _ => None
  | S754_nan => None
  end.

#[export] Instance NumFloat : Num float := {
  of_Z := float_of_Z;
  lit := fun q => PrimFloat.div (float_of_Z (Qnum q)) (float_of_Z (Zpos (Qden q)));
  fadd := PrimFloat.add;
  fsub := PrimFloat.sub;
  fmul := PrimFloat.mul;
  fdiv := PrimFloat.div;
  fabs := PrimFloat.abs;
  feqb := PrimFloat.eqb;
  fleb := PrimFloat.leb;
  isfinite := fun f => negb (PrimFloat.is_nan f || PrimFloat.is_infinity f);
  to_int := float_to_int
}.

(** ** Small dense arrays *)

Section Geometry.

Context {F : Type} `{Num F}.

Local Open Scope num_scope.

Definition vec2 : Type := F * F.
Definition vec3 : Type := F * F * F.
Definition vec4 : Type := F * F * F * F.
(** A (3,2) array, a (3,3) array and a (4,4) array, as rows. *)
Definition mat32 : Type := vec2 * vec2 * vec2.
Definition mat3 : Type := vec3 * vec3 * vec3.
Definition mat4 : Type := vec4 * vec4 * vec4 * vec4.

Definition v3get (v : vec3) (i : nat) : F :=
  let '(a, b, c) := v in
  match i with O => a | S O => b | _ => c end.

Definition m3row (m : mat3) (i : nat) : vec3 :=
  let '(r0, r1, r2) := m in
  match i with O => r0 | S O => r1 | _ => r2 end.

Definition m3get (m : mat3) (i j : nat) : F := v3get (m3row m i) j.

Definition m3col (m : mat3) (j : nat) : vec3 :=
  (m3get m 0 j, m3get m 1 j, m3get m 2 j).

Definition m32col (m : mat32) (j : nat) : vec3 :=
  let '((a0, b0), (a1, b1), (a2, b2)) := m in
  match j with O => (a0, a1, a2) | _ => (b0, b1, b2) end.

Definition v4get (v : vec4) (j : nat) : F :=
  let '(a, b, c, d) := v in
  match j with O => a | S O => b | S (S O) => c | _ => d end.

Definition m4row (m : mat4) (i : nat) : vec4 :=
  let '(r0, r1, r2, r3) := m in
  match i with O => r0 | S O => r1 | S (S O) => r2 | _ => r3 end.

Definition m4get (m : mat4) (i j : nat) : F := v4get (m4row m i) j.

(** [np.eye(3)] and [np.zeros((3,3))]. *)
Definition eye3 : mat3 :=
  ((of_Z 1, of_Z 0, of_Z 0), (of_Z 0, of_Z 1, of_Z 0), (of_Z 0, of_Z 0, of_Z 1)).

Definition zeros3 : mat3 :=
  ((of_Z 0, of_Z 0, of_Z 0), (of_Z 0, of_Z 0, of_Z 0), (of_Z 0, of_Z 0, of_Z 0)).

(** [m.T] *)
Definition transpose3 (m : mat3) : mat3 := (m3col m 0, m3col m 1, m3col m 2).

(** [np.inner(a, b)] on two 3-vectors, summed left to right. *)
Definition inner3 (a b : vec3) : F :=
  let '(a0, a1, a2) := a in
  let '(b0, b1, b2) := b in
  a0 * b0 + a1 * b1 + a2 * b2.

(** [np.dot(a, b)] on two (3,3) arrays: entry (i,j) is row i of [a] against
    column j of [b]. *)
Definition dot3 (a b : mat3) : mat3 :=
  let row (i : nat) : vec3 :=
    (inner3 (m3row a i) (m3col b 0),
     inner3 (m3row a i) (m3col b 1),
     inner3 (m3row a i) (m3col b 2)) in
  (row 0%nat, row 1%nat, row 2%nat).

(** [np.cross(a, b)] on two 3-vectors. *)
Definition cross (a b : vec3) : vec3 :=
  let '(a0, a1, a2) := a in
  let '(b0, b1, b2) := b in
  (a1 * b2 - a2 * b1, a2 * b0 - a0 * b2, a0 * b1 - a1 * b0).

(** One entry of [np.isclose(x, y, rtol, atol)]: finite entries are compared
    by [|x - y| <= atol + rtol * |y|], the others by equality. *)
Definition isclose (rtol atol x y : F) : bool :=
  if isfinite x && isfinite y
  then fleb (fabs (x - y)) (atol + rtol * fabs y)
  else feqb x y.

Definition vec3_list (v : vec3) : list F := let '(a, b, c) := v in [a; b; c].
Definition mat3_list (m : mat3) : list F :=
  let '(r0, r1, r2) := m in vec3_list r0 ++ vec3_list r1 ++ vec3_list r2.
Definition mat32_list (m : mat32) : list F :=
  let '((a0, b0), (a1, b1), (a2, b2)) := m in [a0; b0; a1; b1; a2; b2].

Fixpoint all2 (p : F -> F -> bool) (xs ys : list F) : bool :=
  match xs, ys with
  | x :: xs', y :: ys' => p x y && all2 p xs' ys'
  | _, _ => true
  end.

(** [np.allclose(a, b, rtol, atol)] on two arrays of one shape, given by
    their entries. *)
Definition allclose (rtol atol : F) (xs ys : list F) : bool :=
  all2 (isclose rtol atol) xs ys.

(** Every entry of [xs] within the absolute tolerance [tol] of its partner
    in [ys]: [|x - y| <= tol]. *)
Definition within_abs_tol (tol : F) (xs ys : list F) : bool :=
  all2 (fun x y => fleb (fabs (x - y)) tol) xs ys.

(** numpy's default tolerances. *)
Definition default_rtol : F := lit (1 # 100000).
Definition default_atol : F := lit (1 # 100000000).

End Geometry.

Arguments vec2 : clear implicits.
Arguments vec3 : clear implicits.
Arguments vec4 : clear implicits.
Arguments mat32 : clear implicits.
Arguments mat3 : clear implicits.
Arguments mat4 : clear implicits.

(** The numeric utilities [nearest_pos_semi_def] (from [core.geometry]) and
    [B2q] (from [dwiparams]) are not part of the sources at hand; the
    wrappers consume them as black boxes, and so they are parameters here. *)
Class NumericUtils (F : Type) : Type := {
  nearest_pos_semi_def : mat3 F -> mat3 F;
  B2q : mat3 F -> vec3 F
}.

(** ** Pixel blocks and Python scalars *)

(** A numpy array: its shape and its entries in row-major (C) order. *)
Record ndarray (A : Type) : Type := {
  shape : list nat;
  buf : list A
}.

Section NdArray.

Context {A : Type}.

(** Number of entries of a shape. *)
Definition numel (s : list nat) : nat := fold_right Nat.mul 1%nat s.

(** An array is well formed when its buffer has as many entries as its shape. *)
Definition wf_array (a : ndarray A) : Prop := length (buf a) = numel (shape a).

(** Row-major offset of a multi-index. *)
Fixpoint offset (s idx : list nat) : nat :=
  match s, idx with
  | _ :: s', i :: idx' => (i * numel s' + offset s' idx')%nat
  | _, _ => 0%nat
  end.

Fixpoint in_bounds (s idx : list nat) : bool :=
  match s, idx with
  | [], [] => true
  | d :: s', i :: idx' => Nat.ltb i d && in_bounds s' idx'
  | _, _ => false
  end.

(** [a[i0, i1, ...]], [None] where numpy raises [IndexError]. *)
Definition item (a : ndarray A) (idx : list nat) : option A :=
  if in_bounds (shape a) idx then nth_error (buf a) (offset (shape a) idx)
  else None.

(** All multi-indices of a shape, in row-major order. *)
Fixpoint indices (s : list nat) : list (list nat) :=
  match s with
  | [] => [[]]
  | d :: s' => flat_map (fun i => map (cons i) (indices s')) (seq 0 d)
  end.

(** [a.reshape(s)]: the same buffer read with another shape. *)
Definition reshape (s : list nat) (a : ndarray A) : result (ndarray A) :=
  if Nat.eqb (numel s) (length (buf a))
  then Ok {| shape := s; buf := buf a |}
  else Raise ValueError.

Fixpoint index_of (k : nat) (l : list nat) : nat :=
  match l with
  | [] => 0%nat
  | x :: l' => if Nat.eqb x k then 0%nat else S (index_of k l')
  end.

(** [a.transpose(axes)]: axis [i] of the result is axis [axes[i]] of [a], so
    the entry at [idx'] is the entry of [a] at the index [idx] with
    [idx[axes[i]] = idx'[i]]. The result is laid out in row-major order. *)
Definition permute (axes xs : list nat) : list nat :=
  map (fun ax => nth ax xs 0%nat) axes.

Definition unpermute (axes idx' : list nat) : list nat :=
  map (fun k => nth (index_of k axes) idx' 0%nat) (seq 0 (length axes)).

Definition transpose (axes : list nat) (a : ndarray A) : ndarray A :=
  let s' := permute axes (shape a) in
  {| shape := s';
     buf := match buf a with
            | [] => []
            | d :: _ =>
                map (fun idx' => nth (offset (shape a) (unpermute axes idx')) (buf a) d)
                    (indices s')
            end |}.

Fixpoint remove_axis (k : nat) (l : list nat) : list nat :=
  match l with
  | [] => []
  | x :: l' => if Nat.eqb x k then l' else x :: remove_axis k l'
  end.

Definition insert_at (pos x : nat) (l : list nat) : list nat :=
  firstn pos l ++ x :: skipn pos l.

(** [np.rollaxis(a, axis, start)] for non-negative [axis] and [start]. *)
Definition rollaxis (a : ndarray A) (axis start : nat) : result (ndarray A) :=
  let n := length (shape a) in
  if negb (Nat.ltb axis n) then Raise ValueError
  else if negb (Nat.leb start n) then Raise ValueError
  else
    let start := if Nat.ltb axis start then Nat.pred start else start in
    if Nat.eqb axis start then Ok a
    else Ok (transpose (insert_at start axis (remove_axis axis (seq 0 n))) a).

(** [a[:n]]: the first [n] blocks along the first axis. *)
Definition take_first (n : nat) (a : ndarray A) : ndarray A :=
  match shape a with
  | [] => a
  | d :: s' =>
      {| shape := Nat.min n d :: s';
         buf := firstn (Nat.min n d * numel s') (buf a) |}
  end.

(** The un-tiling of [MosaicWrapper.get_data]:
    [v4 = data.reshape(mosaic_size, n_rows, mosaic_size, n_cols)],
    [v4p = np.rollaxis(v4, 2, 1)],
    [v3 = v4p.reshape(mosaic_size * mosaic_size, n_rows, n_cols)],
    [v3 = v3[:n_mosaic]]. *)
Definition unmosaic (mosaic_size n_rows n_cols n_mosaic : nat) (data : ndarray A)
  : result (ndarray A) :=
  v4 <- reshape [mosaic_size; n_rows; mosaic_size; n_cols] data ;;
  v4p <- rollaxis v4 2 1 ;;
  v3 <- reshape [(mosaic_size * mosaic_size)%nat; n_rows; n_cols] v4p ;;
  Ok (take_first n_mosaic v3).

End NdArray.

Section Wrappers.

Context {F : Type} `{Num F}.

Local Open Scope num_scope.

(** A Python number: an [int] or a [float]. *)
Inductive scalar : Type :=
| SInt (z : Z)
| SFloat (f : F).

Definition scalar_val (s : scalar) : F :=
  match s with SInt z => of_Z z | SFloat f => f end.

(** Python's [==] on numbers: integers exactly, otherwise as floats. *)
Definition scalar_eqb (a b : scalar) : bool :=
  match a, b with
  | SInt x, SInt y => Z.eqb x y
  | _, _ => feqb (scalar_val a) (scalar_val b)
  end.

(** The fixed-width integer types of a pixel block. *)
Inductive width : Type := W8 | W16 | W32 | W64.

Record int_type : Type := { int_signed : bool; int_width : width }.

Definition int8 : int_type := {| int_signed := true; int_width := W8 |}.
Definition int16 : int_type := {| int_signed := true; int_width := W16 |}.
Definition int32 : int_type := {| int_signed := true; int_width := W32 |}.
Definition int64 : int_type := {| int_signed := true; int_width := W64 |}.
Definition uint8 : int_type := {| int_signed := false; int_width := W8 |}.
Definition uint16 : int_type := {| int_signed := false; int_width := W16 |}.
Definition uint32 : int_type := {| int_signed := false; int_width := W32 |}.
Definition uint64 : int_type := {| int_signed := false; int_width := W64 |}.

Definition bits (b : width) : Z :=
  match b with W8 => 8 | W16 => 16 | W32 => 32 | W64 => 64 end.

Definition width_max (a b : width) : width :=
  if (bits a <? bits b)%Z then b else a.

(** The next width up; there is none above 64 bits. *)
Definition width_double (b : width) : option width :=
  match b with W8 => Some W16 | W16 => Some W32 | W32 => Some W64 | W64 => None end.

Definition int_min (t : int_type) : Z :=
  if int_signed t then (- 2 ^ (bits (int_width t) - 1))%Z else 0%Z.

Definition int_max (t : int_type) : Z :=
  if int_signed t then (2 ^ (bits (int_width t) - 1) - 1)%Z
  else (2 ^ bits (int_width t) - 1)%Z.

Definition fits (t : int_type) (k : Z) : bool :=
  ((int_min t <=? k) && (k <=? int_max t))%Z.

(** Integer arithmetic of a fixed-width type keeps the low bits of the
    result: unsigned values modulo [2^bits], signed values in two's
    complement. *)
Definition wrap (t : int_type) (x : Z) : Z :=
  let m := (2 ^ bits (int_width t))%Z in
  if int_signed t then ((x + m / 2) mod m - m / 2)%Z else (x mod m)%Z.

(** The narrowest unsigned width holding [k >= 0], and the narrowest signed
    width holding [k]; [None] when 64 bits do not suffice. *)
Definition min_unsigned_width (k : Z) : option width :=
  if (k <? 2 ^ 8)%Z then Some W8
  else if (k <? 2 ^ 16)%Z then Some W16
  else if (k <? 2 ^ 32)%Z then Some W32
  else if (k <? 2 ^ 64)%Z then Some W64
  else None.

Definition min_signed_width (k : Z) : option width :=
  if fits int8 k then Some W8
  else if fits int16 k then Some W16
  else if fits int32 k then Some W32
  else if fits int64 k then Some W64
  else None.

(** The numeric type of [block op k] for an integer block and a Python
    [int]: the block's own type when [k] fits in it, the next integer type
    holding both otherwise, [float64] when no 64-bit integer type holds both,
    and an array of Python objects when [k] itself needs more than 64 bits. *)
Inductive promoted : Type :=
| ToInt (t : int_type)
| ToFloat
| ToObject.

Definition signed_of (b : width) : int_type :=
  {| int_signed := true; int_width := b |}.

Definition unsigned_of (b : width) : int_type :=
  {| int_signed := false; int_width := b |}.

(** [promote_types] on a signed type of width [s] and an unsigned type of
    width [u]. *)
Definition promote_mixed (s u : width) : promoted :=
  if (bits u <? bits s)%Z then ToInt (signed_of s)
  else match width_double u with
       | Some b => ToInt (signed_of b)
       | None => ToFloat
       end.

Definition result_type (t : int_type) (k : Z) : promoted :=
  if (0 <=? k)%Z then
    match min_unsigned_width k with
    | None => ToObject
    | Some m =>
        if int_signed t then
          if fits (signed_of m) k
          then ToInt (signed_of (width_max (int_width t) m))
          else promote_mixed (int_width t) m
        else ToInt (unsigned_of (width_max (int_width t) m))
    end
  else
    match min_signed_width k with
    | None => ToObject
    | Some m =>
        if int_signed t then ToInt (signed_of (width_max (int_width t) m))
        else promote_mixed m (int_width t)
    end.

(** A pixel block carries its numeric type: one of the integer types, the
    float type, or Python objects (numbers of unbounded size). *)
Inductive pixels : Type :=
| IntPixels (t : int_type) (a : ndarray Z)
| FloatPixels (a : ndarray F)
| ObjPixels (a : ndarray scalar).

Definition amap {A B : Type} (f : A -> B) (a : ndarray A) : ndarray B :=
  {| shape := shape a; buf := map f (buf a) |}.

(** Python's [*] and [+] on two numbers. *)
Definition py_mul (a b : scalar) : scalar :=
  match a, b with
  | SInt x, SInt y => SInt (x * y)
  | _, _ => SFloat (scalar_val a * scalar_val b)
  end.

Definition py_add (a b : scalar) : scalar :=
  match a, b with
  | SInt x, SInt y => SInt (x + y)
  | _, _ => SFloat (scalar_val a + scalar_val b)
  end.

(** [data * s] and [data + s] with a Python number [s]. An integer block
    against an [int] is computed in [result_type], wrapping around; against a
    [float] it is promoted to float. A float block stays float. *)
Definition pix_mul (data : pixels) (s : scalar) : pixels :=
  match data, s with
  | IntPixels t a, SInt k =>
      match result_type t k with
      | ToInt t' => IntPixels t' (amap (fun x => wrap t' (x * k)) a)
      | ToFloat => FloatPixels (amap (fun x => of_Z x * of_Z k) a)
      | ToObject => ObjPixels (amap (fun x => SInt (x * k)) a)
      end
  | IntPixels _ a, SFloat f => FloatPixels (amap (fun x => of_Z x * f) a)
  | FloatPixels a, _ => FloatPixels (amap (fun x => x * scalar_val s) a)
  | ObjPixels a, _ => ObjPixels (amap (fun x => py_mul x s) a)
  end.

Definition pix_add (data : pixels) (s : scalar) : pixels :=
  match data, s with
  | IntPixels t a, SInt k =>
      match result_type t k with
      | ToInt t' => IntPixels t' (amap (fun x => wrap t' (x + k)) a)
      | ToFloat => FloatPixels (amap (fun x => of_Z x + of_Z k) a)
      | ToObject => ObjPixels (amap (fun x => SInt (x + k)) a)
      end
  | IntPixels _ a, SFloat f => FloatPixels (amap (fun x => of_Z x + f) a)
  | FloatPixels a, _ => FloatPixels (amap (fun x => x + scalar_val s) a)
  | ObjPixels a, _ => ObjPixels (amap (fun x => py_add x s) a)
  end.

Definition is_int_pixels (data : pixels) : bool :=
  match data with IntPixels _ _ => true | _ => false end.

(** ** Records *)

(** Modelled from the spec: the sub-header reader [csareader] is not part of
    the sources at hand. A sub-header is represented by what its accessors
    [get_slice_normal], [get_b_matrix], [get_b_value], [get_ice_dims],
    [get_n_mosaic] and [is_mosaic] return, each [None] on absence. A call
    that raises on a malformed sub-header is outside this representation:
    every statement about a sub-header is about accessors that return. The
    one error the wrappers catch, the [KeyError] of [get_n_mosaic], is [None]
    here, as it is after the [except] clause. *)
Record csa_header : Type := {
  csa_slice_normal : option (vec3 F);
  csa_b_matrix : option (mat3 F);
  csa_b_value : option scalar;
  csa_ice_dims : option (list string);
  csa_n_mosaic : option N;
  csa_is_mosaic : bool
}.

(** The empty mapping [{}]. *)
Definition empty_csa : csa_header :=
  {| csa_slice_normal := None; csa_b_matrix := None; csa_b_value := None;
     csa_ice_dims := None; csa_n_mosaic := None; csa_is_mosaic := false |}.

(** The wrapped DICOM record: a field is [None] when the attribute is not
    defined. Fields have the length the DICOM value multiplicity gives them.
    [csa_image_header] is what [csar.get_csa_header] finds in the record. *)
Record dcm_data : Type := {
  Rows : option N;
  Columns : option N;
  ImageOrientationPatient : option (F * F * F * F * F * F);
  PixelSpacing : option (F * F);
  SpacingBetweenSlices : option F;
  ImagePositionPatient : option (vec3 F);
  SeriesNumber : option Z;
  ImageType : option (list string);
  SequenceName : option string;
  SeriesInstanceID : option string;
  EchoNumbers : option Z;
  InstanceNumber : option Z;
  RescaleSlope : option scalar;
  RescaleIntercept : option scalar;
  pixel_array : option pixels;
  csa_image_header : option csa_header
}.

Definition empty_dcm : dcm_data :=
  {| Rows := None; Columns := None; ImageOrientationPatient := None;
     PixelSpacing := None; SpacingBetweenSlices := None;
     ImagePositionPatient := None; SeriesNumber := None; ImageType := None;
     SequenceName := None; SeriesInstanceID := None; EchoNumbers := None;
     InstanceNumber := None; RescaleSlope := None; RescaleIntercept := None;
     pixel_array := None; csa_image_header := None |}.

(** The three classes. [MosaicWrapper] keeps the tile count [n_mosaic]. *)
Inductive wrapper : Type :=
| Wrapper (dcm : dcm_data)
| SiemensWrapper (dcm : dcm_data) (csa : csa_header)
| MosaicWrapper (dcm : dcm_data) (csa : csa_header) (n_mosaic : N).

Definition get_dcm (w : wrapper) : dcm_data :=
  match w with
  | Wrapper d => d
  | SiemensWrapper d _ => d
  | MosaicWrapper d _ _ => d
  end.

Definition csa_of (w : wrapper) : option csa_header :=
  match w with
  | Wrapper _ => None
  | SiemensWrapper _ c => Some c
  | MosaicWrapper _ c _ => Some c
  end.

Definition is_mosaic (w : wrapper) : bool :=
  match w with MosaicWrapper _ _ _ => true | _ => false end.

(** [self.mosaic_size = np.ceil(np.sqrt(n_mosaic))]: a float with an integral
    value, kept as the integer it denotes (the rounded square root of a tile
    count below 2^52 has the ceiling of the exact one). *)
Definition mosaic_size_of (n_mosaic : N) : N := N.sqrt_up n_mosaic.

(** *** Construction *)

Definition Wrapper_init (dcm : option dcm_data) : wrapper :=
  Wrapper (match dcm with Some d => d | None => empty_dcm end).

Definition resolve_csa (d : dcm_data) (csa : option csa_header) : csa_header :=
  match csa with
  | Some c => c
  | None => match csa_image_header d with Some c => c | None => empty_csa end
  end.

Definition SiemensWrapper_init (dcm : option dcm_data) (csa : option csa_header)
  : wrapper :=
  let d := match dcm with Some d => d | None => empty_dcm end in
  SiemensWrapper d (resolve_csa d csa).

Definition MosaicWrapper_init (dcm : option dcm_data) (csa : option csa_header)
  (n_mosaic : option N) : result wrapper :=
  let d := match dcm with Some d => d | None => empty_dcm end in
  let c := resolve_csa d csa in
  match n_mosaic with
  | Some n => Ok (MosaicWrapper d c n)
  | None =>
      match csa_n_mosaic c with
      | None => Raise (WrapperError "No valid mosaic number in CSA header; is this really Siemans mosiac data?")
      | Some n =>
          if N.eqb n 0
          then Raise (WrapperError "No valid mosaic number in CSA header; is this really Siemans mosiac data?")
          else Ok (MosaicWrapper d c n)
      end
  end.

Definition make_wrapper (d : dcm_data) : result wrapper :=
  match csa_image_header d with
  | None => Ok (Wrapper d)
  | Some c =>
      if negb (csa_is_mosaic c) then Ok (SiemensWrapper d c)
      else MosaicWrapper_init (Some d) (Some c) None
  end.

(** *** Cached attributes *)

(** The shape tuple: [(Rows, Columns)], or for a mosaic
    [(Rows / mosaic_size, Columns / mosaic_size, n_mosaic)]. *)
Inductive shape_tuple : Type :=
| Shape2 (rows cols : N)
| Shape3 (rows cols : F) (n : N).

Definition image_shape (w : wrapper) : option shape_tuple :=
  match Rows (get_dcm w), Columns (get_dcm w) with
  | Some rows, Some cols =>
      match w with
      | MosaicWrapper _ _ n =>
          let mosaic_size := of_N (mosaic_size_of n) in
          Some (Shape3 (of_N rows / mosaic_size) (of_N cols / mosaic_size) n)
      | _ => Some (Shape2 rows cols)
      end
  | _, _ => None
  end.

(** [np.array(iop).reshape(2,3).T] *)
Definition image_orient_patient (w : wrapper) : option (mat32 F) :=
  match ImageOrientationPatient (get_dcm w) with
  | None => None
  | Some (a0, a1, a2, b0, b1, b2) => Some ((a0, b0), (a1, b1), (a2, b2))
  end.

(** [np.cross( *iop.T[:] )] *)
Definition cross_of_iop (iop : mat32 F) : vec3 F :=
  cross (m32col iop 0) (m32col iop 1).

Definition slice_normal (w : wrapper) : option (vec3 F) :=
  let base :=
    match image_orient_patient w with
    | None => None
    | Some iop => Some (cross_of_iop iop)
    end in
  match csa_of w with
  | None => base
  | Some c =>
      match csa_slice_normal c with
      | Some n => Some n
      | None => base
      end
  end.

(** [R = np.eye(3); R[:,:2] = iop; R[:,2] = s_norm] *)
Definition assemble_rotation (iop : mat32 F) (s_norm : vec3 F) : mat3 F :=
  let '((a0, b0), (a1, b1), (a2, b2)) := iop in
  let '(n0, n1, n2) := s_norm in
  ((a0, b0, n0), (a1, b1, n1), (a2, b2, n2)).

(** The check [np.allclose(np.eye(3), np.dot(R, R.T), atol=1e-6)]. *)
Definition is_rotation (R : mat3 F) : bool :=
  allclose default_rtol (lit (1 # 1000000))
           (mat3_list eye3) (mat3_list (dot3 R (transpose3 R))).

Definition rotation_matrix (w : wrapper) : result (option (mat3 F)) :=
  match image_orient_patient w, slice_normal w with
  | Some iop, Some s_norm =>
      let R := assemble_rotation iop s_norm in
      if is_rotation R then Ok (Some R) else Raise AssertionError
  | _, _ => Ok None
  end.

Definition voxel_sizes (w : wrapper) : option (vec3 F) :=
  match PixelSpacing (get_dcm w) with
  | None => None
  | Some (dx, dy) =>
      let zs := match SpacingBetweenSlices (get_dcm w) with
                | Some z => z
                | None => of_Z 1
                end in
      Some (dx, dy, zs)
  end.

(** [iop * vox[:2]]: column [j] of the orientation scaled by [vox[j]]. *)
Definition scale_cols32 (iop : mat32 F) (vox : vec3 F) : mat32 F :=
  let '((a0, b0), (a1, b1), (a2, b2)) := iop in
  let '(v0, v1, _) := vox in
  ((a0 * v0, b0 * v1), (a1 * v0, b1 * v1), (a2 * v0, b2 * v1)).

(** [np.dot(M, t[:,None]).ravel()] for a (3,2) array and a 2-vector. *)
Definition dot32 (M : mat32 F) (t : vec2 F) : vec3 F :=
  let '((a0, b0), (a1, b1), (a2, b2)) := M in
  let '(t0, t1) := t in
  (a0 * t0 + b0 * t1, a1 * t0 + b1 * t1, a2 * t0 + b2 * t1).

Definition vadd3 (a b : vec3 F) : vec3 F :=
  let '(a0, a1, a2) := a in
  let '(b0, b1, b2) := b in
  (a0 + b0, a1 + b1, a2 + b2).

(** [(md_xy - md_xy / mosaic_size) / 2] *)
Definition vox_trans_fixes (o_rows o_cols mosaic_size : N) : vec2 F :=
  let fix1 (m : N) : F := (of_N m - of_N m / of_N mosaic_size) / of_Z 2 in
  (fix1 o_rows, fix1 o_cols).

Definition image_position (w : wrapper) : option (vec3 F) :=
  match w with
  | MosaicWrapper d _ n =>
      match ImagePositionPatient d, Rows d, Columns d,
            image_orient_patient w, voxel_sizes w with
      | Some ipp, Some o_rows, Some o_cols, Some iop, Some vox =>
          let M := scale_cols32 iop vox in
          Some (vadd3 ipp
                  (dot32 M (vox_trans_fixes o_rows o_cols (mosaic_size_of n))))
      | _, _, _, _, _ => None
      end
  | _ => ImagePositionPatient (get_dcm w)
  end.

Definition slice_indicator (w : wrapper) : option F :=
  match image_position w, slice_normal w with
  | Some ipp, Some s_norm => Some (inner3 ipp s_norm)
  | _, _ => None
  end.

(** *** The affine *)

(** [orient * np.array(vox)]: column [j] of [orient] scaled by [vox[j]]. *)
Definition scale_cols3 (orient : mat3 F) (vox : vec3 F) : mat3 F :=
  let '(v0, v1, v2) := vox in
  let srow (r : vec3 F) : vec3 F := let '(x, y, z) := r in (x * v0, y * v1, z * v2) in
  let '(r0, r1, r2) := orient in
  (srow r0, srow r1, srow r2).

(** [aff = np.eye(4); aff[:3,:3] = block; aff[:3,3] = ipp] *)
Definition assemble_affine (block : mat3 F) (ipp : vec3 F) : mat4 F :=
  let '((m00, m01, m02), (m10, m11, m12), (m20, m21, m22)) := block in
  let '(p0, p1, p2) := ipp in
  ((m00, m01, m02, p0),
   (m10, m11, m12, p1),
   (m20, m21, m22, p2),
   (of_Z 0, of_Z 0, of_Z 0, of_Z 1)).

Definition get_affine (w : wrapper) : result (mat4 F) :=
  orient <- rotation_matrix w ;;
  match orient, voxel_sizes w, image_position w with
  | Some orient, Some vox, Some ipp =>
      Ok (assemble_affine (scale_cols3 orient vox) ipp)
  | _, _, _ => Raise (WrapperError "Not enough information for affine")
  end.

(** *** Pixel data *)

Definition get_pixel_array (w : wrapper) : result pixels :=
  match pixel_array (get_dcm w) with
  | Some data => Ok data
  | None => Raise (WrapperError "Cannot find data in DICOM")
  end.

(** [self.get('RescaleSlope', 1)] and [self.get('RescaleIntercept', 0)] *)
Definition rescale_slope (w : wrapper) : scalar :=
  match RescaleSlope (get_dcm w) with Some s => s | None => SInt 1 end.

Definition rescale_intercept (w : wrapper) : scalar :=
  match RescaleIntercept (get_dcm w) with Some s => s | None => SInt 0 end.

Definition _scale_data (w : wrapper) (data : pixels) : pixels :=
  let scale := rescale_slope w in
  let offset := rescale_intercept w in
  if negb (scalar_eqb scale (SInt 1)) then
    if scalar_eqb offset (SInt 0) then pix_mul data scale
    else pix_add (pix_mul data scale) offset
  else if negb (scalar_eqb offset (SInt 0)) then pix_add data offset
  else data.

(** A float handed to [reshape] as a dimension is truncated to an integer. *)
Definition as_dim (f : F) : result nat :=
  match to_int f with
  | Some z => if (z <? 0)%Z then Raise ValueError else Ok (Z.to_nat z)
  | None => Raise ValueError
  end.

Definition pix_unmosaic (mosaic_size n_rows n_cols n_mosaic : nat) (data : pixels)
  : result pixels :=
  match data with
  | IntPixels t a =>
      v3 <- unmosaic mosaic_size n_rows n_cols n_mosaic a ;; Ok (IntPixels t v3)
  | FloatPixels a =>
      v3 <- unmosaic mosaic_size n_rows n_cols n_mosaic a ;; Ok (FloatPixels v3)
  | ObjPixels a =>
      v3 <- unmosaic mosaic_size n_rows n_cols n_mosaic a ;; Ok (ObjPixels v3)
  end.

Definition pix_shape (data : pixels) : list nat :=
  match data with
  | IntPixels _ a => shape a
  | FloatPixels a => shape a
  | ObjPixels a => shape a
  end.

Definition pix_wf (data : pixels) : Prop :=
  match data with
  | IntPixels _ a => wf_array a
  | FloatPixels a => wf_array a
  | ObjPixels a => wf_array a
  end.

(** [data[idx]] as a Python number. *)
Definition pix_item (data : pixels) (idx : list nat) : option scalar :=
  match data with
  | IntPixels _ a => option_map SInt (item a idx)
  | FloatPixels a => option_map SFloat (item a idx)
  | ObjPixels a => item a idx
  end.

Definition get_data (w : wrapper) : result pixels :=
  match w with
  | MosaicWrapper _ _ n =>
      match image_shape w with
      | None => Raise (WrapperError "No valid information for image shape")
      | Some (Shape2 _ _) => Raise ValueError
      | Some (Shape3 n_rows n_cols n_mosaic) =>
          data <- get_pixel_array w ;;
          nr <- as_dim n_rows ;;
          nc <- as_dim n_cols ;;
          v3 <- pix_unmosaic (N.to_nat (mosaic_size_of n)) nr nc
                             (N.to_nat n_mosaic) data ;;
          Ok (_scale_data w v3)
      end
  | _ =>
      data <- get_pixel_array w ;;
      Ok (_scale_data w data)
  end.

(** *** Diffusion parameters *)

Context {U : NumericUtils F}.

Definition b_matrix (w : wrapper) : result (option (mat3 F)) :=
  match csa_of w with
  | None => Ok None
  | Some hdr =>
      match csa_b_matrix hdr with
      | None =>
          match csa_b_value hdr with
          | None => Ok None
          | Some bval_requested =>
              if negb (scalar_eqb bval_requested (SInt 0))
              then Raise (CSAError "No B matrix and b value != 0")
              else Ok (Some zeros3)
          end
      | Some B =>
          rot <- rotation_matrix w ;;
          match rot with
          | None => Raise AttributeError
          | Some rot =>
              let R := transpose3 rot in
              let B_vox := dot3 R (dot3 B (transpose3 R)) in
              Ok (Some (nearest_pos_semi_def B_vox))
          end
      end
  end.

Definition q_vector (w : wrapper) : result (option (vec3 F)) :=
  B <- b_matrix w ;;
  match B with
  | None => Ok None
  | Some B => Ok (Some (B2q B))
  end.

Definition ice_dims (w : wrapper) : option (list string) :=
  match csa_of w with
  | None => None
  | Some hdr => csa_ice_dims hdr
  end.

(** *** Volume matching *)

Definition none_matcher {A : Type} (val1 val2 : option A)
  (match_func : A -> A -> result bool) : result bool :=
  match val1, val2 with
  | None, None => Ok true
  | Some x, Some y => match_func x y
  | _, _ => Ok false
  end.

Definition option_eqb {A : Type} (eqb : A -> A -> bool) (a b : option A) : bool :=
  match a, b with
  | None, None => true
  | Some x, Some y => eqb x y
  | _, _ => false
  end.

Fixpoint list_eqb {A : Type} (eqb : A -> A -> bool) (xs ys : list A) : bool :=
  match xs, ys with
  | [], [] => true
  | x :: xs', y :: ys' => eqb x y && list_eqb eqb xs' ys'
  | _, _ => false
  end.

Definition shape_eqb (a b : shape_tuple) : bool :=
  match a, b with
  | Shape2 r c, Shape2 r' c' => N.eqb r r' && N.eqb c c'
  | Shape3 r c n, Shape3 r' c' n' => feqb r r' && feqb c c' && N.eqb n n'
  | _, _ => false
  end.

Definition matchers : Type :=
  option Z * option shape_tuple * option (list string) * option string
  * option string * option Z.

Definition _get_matchers (hdr : wrapper) : matchers :=
  (SeriesNumber (get_dcm hdr),
   image_shape hdr,
   ImageType (get_dcm hdr),
   SequenceName (get_dcm hdr),
   SeriesInstanceID (get_dcm hdr),
   EchoNumbers (get_dcm hdr)).

Definition matchers_eqb (a b : matchers) : bool :=
  let '(sn, sh, it, sq, si, en) := a in
  let '(sn', sh', it', sq', si', en') := b in
  option_eqb Z.eqb sn sn'
  && option_eqb shape_eqb sh sh'
  && option_eqb (list_eqb String.eqb) it it'
  && option_eqb String.eqb sq sq'
  && option_eqb String.eqb si si'
  && option_eqb Z.eqb en en'.

(** [np.allclose(iop1, iop2)] on two attribute values: numpy cannot compare
    an array with [None]. *)
Definition allclose_iop (iop1 iop2 : option (mat32 F)) : result bool :=
  match iop1, iop2 with
  | Some x, Some y =>
      Ok (allclose default_rtol default_atol (mat32_list x) (mat32_list y))
  | _, _ => Raise TypeError
  end.

(** [np.array(l)[inds]] with an integer index array. *)
Fixpoint fancy_index {A : Type} (l : list A) (inds : list nat) : result (list A) :=
  match inds with
  | [] => Ok []
  | i :: inds' =>
      match nth_error l i with
      | None => Raise IndexError
      | Some x => rest <- fancy_index l inds' ;; Ok (x :: rest)
      end
  end.

Definition _ice_matcher (ice1 ice2 : list string) : result bool :=
  let inds := [1; 1; 1; 1; 1; 1; 0; 0; 1]%nat in
  a1 <- fancy_index ice1 inds ;;
  a2 <- fancy_index ice2 inds ;;
  Ok (list_eqb String.eqb a1 a2).

Definition maybe_same_volume_as (self other : wrapper) : result bool :=
  if negb (matchers_eqb (_get_matchers self) (_get_matchers other)) then Ok false
  else
    let iop1 := image_orient_patient self in
    let iop2 := image_orient_patient other in
    orient_ok <- none_matcher iop1 iop1 (fun _ _ => allclose_iop iop1 iop2) ;;
    if negb orient_ok then Ok false
    else
      let ice1 := ice_dims self in
      let ice2 := ice_dims other in
      ice_ok <- none_matcher ice1 ice2 _ice_matcher ;;
      if negb ice_ok then Ok false
      else
        let in1 := InstanceNumber (get_dcm self) in
        let in2 := InstanceNumber (get_dcm other) in
        in_match <- none_matcher in1 in2 (fun x y => Ok (Z.eqb x y)) ;;
        if in_match then Ok false
        else if option_eqb feqb (slice_indicator self) (slice_indicator other)
             then Ok false
             else Ok true.

(** *** The steps of [maybe_same_volume_as], by name

    The expressions the method evaluates, named for the statements below. *)

Definition orientation_step (self other : wrapper) : result bool :=
  none_matcher (image_orient_patient self) (image_orient_patient self)
    (fun _ _ => allclose_iop (image_orient_patient self) (image_orient_patient other)).

Definition ice_step (self other : wrapper) : result bool :=
  none_matcher (ice_dims self) (ice_dims other) _ice_matcher.

Definition instance_numbers_match (self other : wrapper) : bool :=
  option_eqb Z.eqb (InstanceNumber (get_dcm self)) (InstanceNumber (get_dcm other)).

Definition slice_indicators_equal (self other : wrapper) : bool :=
  option_eqb feqb (slice_indicator self) (slice_indicator other).

(** The steps before the instance-number step all pass. *)
Definition earlier_steps_pass (self other : wrapper) : Prop :=
  matchers_eqb (_get_matchers self) (_get_matchers other) = true
  /\ orientation_step self other = Ok true
  /\ ice_step self other = Ok true.

End Wrappers.

Arguments scalar : clear implicits.
Arguments pixels : clear implicits.
Arguments csa_header : clear implicits.
Arguments dcm_data : clear implicits.
Arguments wrapper : clear implicits.
Arguments shape_tuple : clear implicits.
Arguments matchers : clear implicits.

(** ** Further definitions *)

Section MoreDefinitions.

Context {F : Type} `{Num F}.

(** [data.size]: the number of entries of a pixel block. *)
Definition pix_size (data : pixels F) : nat :=
  match data with
  | IntPixels _ a => length (buf a)
  | FloatPixels a => length (buf a)
  | ObjPixels a => length (buf a)
  end.

(** The record of another slice of the same series: the position and the
    instance number are replaced, every other field is kept. *)
Definition reposition (d : dcm_data F) (ipp : vec3 F) (instance : option Z)
  : dcm_data F :=
  {| Rows := Rows d; Columns := Columns d;
     ImageOrientationPatient := ImageOrientationPatient d;
     PixelSpacing := PixelSpacing d;
     SpacingBetweenSlices := SpacingBetweenSlices d;
     ImagePositionPatient := Some ipp;
     SeriesNumber := SeriesNumber d;
     ImageType := ImageType d;
     SequenceName := SequenceName d;
     SeriesInstanceID := SeriesInstanceID d;
     EchoNumbers := EchoNumbers d;
     InstanceNumber := instance;
     RescaleSlope := RescaleSlope d;
     RescaleIntercept := RescaleIntercept d;
     pixel_array := pixel_array d;
     csa_image_header := csa_image_header d |}.

(** *** Field access

    The value of an attribute of the record, as Python sees it. *)
Inductive pyval : Type :=
| VNone
| VInt (z : Z)
| VFloat (f : F)
| VFloats (l : list F)
| VStr (s : string)
| VStrs (l : list string)
| VPixels (p : pixels F).

Definition pyval_of_scalar (s : scalar F) : pyval :=
  match s with SInt z => VInt z | SFloat f => VFloat f end.

(** [getattr(self.dcm_data, key)], [None] when Python raises
    [AttributeError]. The record has the data elements below and no other
    attribute. *)
Definition dcm_getattr (d : dcm_data F) (key : string) : option pyval :=
  if String.eqb key "Rows" then option_map (fun n => VInt (Z.of_N n)) (Rows d)
  else if String.eqb key "Columns" then option_map (fun n => VInt (Z.of_N n)) (Columns d)
  else if String.eqb key "ImageOrientationPatient" then
    option_map (fun '(a0, a1, a2, b0, b1, b2) => VFloats [a0; a1; a2; b0; b1; b2])
               (ImageOrientationPatient d)
  else if String.eqb key "PixelSpacing" then
    option_map (fun '(dx, dy) => VFloats [dx; dy]) (PixelSpacing d)
  else if String.eqb key "SpacingBetweenSlices" then
    option_map VFloat (SpacingBetweenSlices d)
  else if String.eqb key "ImagePositionPatient" then
    option_map (fun '(x, y, z) => VFloats [x; y; z]) (ImagePositionPatient d)
  else if String.eqb key "SeriesNumber" then option_map VInt (SeriesNumber d)
  else if String.eqb key "ImageType" then option_map VStrs (ImageType d)
  else if String.eqb key "SequenceName" then option_map VStr (SequenceName d)
  else if String.eqb key "SeriesInstanceID" then option_map VStr (SeriesInstanceID d)
  else if String.eqb key "EchoNumbers" then option_map VInt (EchoNumbers d)
  else if String.eqb key "InstanceNumber" then option_map VInt (InstanceNumber d)
  else if String.eqb key "RescaleSlope" then option_map pyval_of_scalar (RescaleSlope d)
  else if String.eqb key "RescaleIntercept" then
    option_map pyval_of_scalar (RescaleIntercept d)
  else if String.eqb key "pixel_array" then option_map VPixels (pixel_array d)
  else None.

(** The outcome of [self[key]]: the value, or
    [KeyError('%s not defined in dcm_data' % key)]. *)
Inductive lookup : Type :=
| Found (v : pyval)
| KeyError (key : string).

Definition getitem (w : wrapper F) (key : string) : lookup :=
  match dcm_getattr (get_dcm w) key with
  | Some v => Found v
  | None => KeyError key
  end.

(** [self.get(key, default)] *)
Definition get (w : wrapper F) (key : string) (default : pyval) : pyval :=
  match dcm_getattr (get_dcm w) key with
  | Some v => v
  | None => default
  end.

End MoreDefinitions.

Arguments pyval : clear implicits.
Arguments lookup : clear implicits.

(** * Concrete wrappers

    The records and wrappers on which the properties are evaluated, in IEEE
    binary64 unless said otherwise. *)

Local Open Scope string_scope.

Local Abbreviation fz := float_of_Z.

(** The direction cosines of an axial slice: rows along x, columns along y. *)
Definition axial : float * float * float * float * float * float :=
  (fz 1, fz 0, fz 0, fz 0, fz 1, fz 0).

(** One slice record of a series; only orientation, position, pixel spacing
    and instance number vary between the examples. *)
Definition slice_record
  (iop : option (float * float * float * float * float * float))
  (ipp : option (vec3 float)) (spacing : option (float * float))
  (instance : option Z) : dcm_data float :=
  {| Rows := Some 64%N; Columns := Some 64%N;
     ImageOrientationPatient := iop;
     PixelSpacing := spacing;
     SpacingBetweenSlices := None;
     ImagePositionPatient := ipp;
     SeriesNumber := Some 3%Z;
     ImageType := Some ["ORIGINAL"; "PRIMARY"];
     SequenceName := Some "ep2d";
     SeriesInstanceID := None;
     EchoNumbers := Some 1%Z;
     InstanceNumber := instance;
     RescaleSlope := None;
     RescaleIntercept := None;
     pixel_array := None;
     csa_image_header := None |}.

Definition at_z (z : Z) : option (vec3 float) := Some (fz 0, fz 0, fz z).
Definition spacing23 : option (float * float) := Some (fz 2, fz 3).

(** Two slices of one series, five millimetres apart, neither carrying an
    instance number. *)
Definition slice_a : wrapper float := Wrapper (slice_record (Some axial) (at_z 0) spacing23 None).
Definition slice_b : wrapper float := Wrapper (slice_record (Some axial) (at_z 5) spacing23 None).

(** The same two slices carrying the instance numbers 1 and 2. *)
Definition slice_1 : wrapper float :=
  Wrapper (slice_record (Some axial) (at_z 0) spacing23 (Some 1%Z)).
Definition slice_2 : wrapper float :=
  Wrapper (slice_record (Some axial) (at_z 5) spacing23 (Some 2%Z)).

(** A slice without orientation, and the neighbouring slice with one. *)
Definition slice_no_iop : wrapper float :=
  Wrapper (slice_record None (at_z 0) spacing23 (Some 1%Z)).

(** Two records without [ImagePositionPatient]; the first has an
    orientation, the second has none. *)
Definition unplaced_oriented : wrapper float :=
  Wrapper (slice_record (Some axial) None spacing23 (Some 1%Z)).
Definition unplaced_plain : wrapper float :=
  Wrapper (slice_record None None spacing23 (Some 2%Z)).
Definition unplaced_next : wrapper float :=
  Wrapper (slice_record None None spacing23 (Some 3%Z)).

(** An axial slice at (10, 20, 30) with pixel spacing 2 x 3. *)
Definition slice_good : wrapper float :=
  Wrapper (slice_record (Some axial) (Some (fz 10, fz 20, fz 30)) spacing23 None).

(** Row direction of length 2, and no pixel spacing. *)
Definition slice_bad : wrapper float :=
  Wrapper (slice_record (Some (fz 2, fz 0, fz 0, fz 0, fz 1, fz 0)) (at_z 0) None None).

(** Row direction of length 1.000004. *)
Definition slice_stretched : wrapper float :=
  Wrapper (slice_record
             (Some (lit (1000004 # 1000000), fz 0, fz 0, fz 0, fz 1, fz 0))
             (at_z 0) spacing23 None).

Definition stretched_rotation : mat3 float :=
  ((lit (1000004 # 1000000), fz 0, fz 0),
   (fz 0, fz 1, fz 0),
   (fz 0, fz 0, lit (1000004 # 1000000))).

Definition block_2x2 : pixels float :=
  IntPixels int16 {| shape := [2; 2]%nat; buf := [1; 2; 3; 4]%Z |}.

(** A 16-bit block with an entry whose double exceeds the type's range. *)
Definition block_bright : pixels float :=
  IntPixels int16 {| shape := [2; 2]%nat; buf := [30000; 100; -3; 4]%Z |}.

Definition pixel_record (slope intercept : option (scalar float)) : dcm_data float :=
  {| Rows := Some 2%N; Columns := Some 2%N;
     ImageOrientationPatient := None; PixelSpacing := None;
     SpacingBetweenSlices := None; ImagePositionPatient := None;
     SeriesNumber := None; ImageType := None; SequenceName := None;
     SeriesInstanceID := None; EchoNumbers := None; InstanceNumber := None;
     RescaleSlope := slope; RescaleIntercept := intercept;
     pixel_array := Some block_2x2; csa_image_header := None |}.

(** An interpretation of the two black boxes, to evaluate the examples; the
    theorems hold for every interpretation. It leaves a matrix as it is and
    reads a vector off its first row, which is what the utilities return on
    the zero matrix. *)
Definition example_utils : NumericUtils float :=
  {| nearest_pos_semi_def := fun B => B;
     B2q := fun B => m3row B 0 |}.

Definition csa_with (B : option (mat3 float)) (bval : option (scalar float))
  : csa_header float :=
  {| csa_slice_normal := None; csa_b_matrix := B; csa_b_value := bval;
     csa_ice_dims := None; csa_n_mosaic := None; csa_is_mosaic := false |}.

Definition siemens_slice (B : option (mat3 float)) (bval : option (scalar float))
  : wrapper float :=
  SiemensWrapper (slice_record (Some axial) (at_z 0) spacing23 None) (csa_with B bval).

(** A b-matrix recorded in patient coordinates. *)
Definition recorded_b : mat3 float :=
  ((fz 900, fz 30, fz 0), (fz 30, fz 100, fz 0), (fz 0, fz 0, fz 0)).

(** The record of the position example: 192 x 192 pixels, identity
    orientation, unit voxels, recorded position at the origin. *)
Definition mosaic_192 {F : Type} `{Num F} : dcm_data F :=
  {| Rows := Some 192%N; Columns := Some 192%N;
     ImageOrientationPatient := Some (of_Z 1, of_Z 0, of_Z 0, of_Z 0, of_Z 1, of_Z 0);
     PixelSpacing := Some (of_Z 1, of_Z 1);
     SpacingBetweenSlices := Some (of_Z 1);
     ImagePositionPatient := Some (of_Z 0, of_Z 0, of_Z 0);
     SeriesNumber := None; ImageType := None; SequenceName := None;
     SeriesInstanceID := None; EchoNumbers := None; InstanceNumber := None;
     RescaleSlope := None; RescaleIntercept := None;
     pixel_array := None; csa_image_header := None |}.

(** A packed block of 4 rows and 2 columns holding three tiles of 2 rows and
    1 column, filled with the tile numbers 1, 2, 3, and one padding tile of
    zeros. *)
Definition packed_4x2 : pixels float :=
  IntPixels int16 {| shape := [4; 2]%nat; buf := [1; 2; 1; 2; 3; 0; 3; 0]%Z |}.

(** The three tiles stacked along the first axis. *)
Definition stack_3x2x1 : pixels float :=
  IntPixels int16 {| shape := [3; 2; 1]%nat; buf := [1; 1; 2; 2; 3; 3]%Z |}.

Definition mosaic_4x2 : wrapper float :=
  MosaicWrapper
    {| Rows := Some 4%N; Columns := Some 2%N;
       ImageOrientationPatient := None; PixelSpacing := None;
       SpacingBetweenSlices := None; ImagePositionPatient := None;
       SeriesNumber := None; ImageType := None; SequenceName := None;
       SeriesInstanceID := None; EchoNumbers := None; InstanceNumber := None;
       RescaleSlope := None; RescaleIntercept := None;
       pixel_array := Some packed_4x2; csa_image_header := None |}
    empty_csa 3.

(** A vendor record whose sub-header announces a mosaic of [n] tiles. *)
Definition csa_mosaic (n : option N) : csa_header float :=
  {| csa_slice_normal := None; csa_b_matrix := None; csa_b_value := None;
     csa_ice_dims := None; csa_n_mosaic := n; csa_is_mosaic := true |}.

(** A record of a packed image: its extents, its pixel block and the
    sub-header found in it. *)
Definition block_record (rows cols : option N) (block : option (pixels float))
  (c : option (csa_header float)) : dcm_data float :=
  {| Rows := rows; Columns := cols;
     ImageOrientationPatient := None; PixelSpacing := None;
     SpacingBetweenSlices := None; ImagePositionPatient := None;
     SeriesNumber := None; ImageType := None; SequenceName := None;
     SeriesInstanceID := None; EchoNumbers := None; InstanceNumber := None;
     RescaleSlope := None; RescaleIntercept := None;
     pixel_array := block; csa_image_header := c |}.

(** The eight pixels of the packed block announced as a single row, and a
    block of six pixels. *)
Definition packed_1x8 : pixels float :=
  IntPixels int16 {| shape := [1; 8]%nat; buf := [1; 2; 1; 2; 3; 0; 3; 0]%Z |}.

Definition packed_3x2 : pixels float :=
  IntPixels int16 {| shape := [3; 2]%nat; buf := [1; 2; 1; 2; 3; 0]%Z |}.

(** A vendor slice without orientation whose sub-header records a b-matrix. *)
Definition siemens_unoriented : wrapper float :=
  SiemensWrapper (slice_record None (at_z 0) spacing23 None)
                 (csa_with (Some recorded_b) None).

(** A slice in exact arithmetic: the row direction is (3/5, 4/5, 0), the
    column direction (-4/5, 3/5, 0), so the slice normal is (0, 0, 1). *)
Definition exact_slice (ipp : vec3 Q) (instance : option Z) : dcm_data Q :=
  {| Rows := Some 64%N; Columns := Some 64%N;
     ImageOrientationPatient := Some (3 # 5, 4 # 5, 0, - (4 # 5), 3 # 5, 0)%Q;
     PixelSpacing := Some (2, 3)%Q;
     SpacingBetweenSlices := None;
     ImagePositionPatient := Some ipp;
     SeriesNumber := Some 3%Z;
     ImageType := Some ["ORIGINAL"; "PRIMARY"];
     SequenceName := Some "ep2d";
     SeriesInstanceID := None;
     EchoNumbers := Some 1%Z;
     InstanceNumber := instance;
     RescaleSlope := None;
     RescaleIntercept := None;
     pixel_array := None;
     csa_image_header := None |}.

(** The mosaic of three tiles in exact arithmetic, and the same pixels under
    a header of 3 rows. *)
Definition exact_mosaic_record (rows cols : N) : dcm_data Q :=
  {| Rows := Some rows; Columns := Some cols;
     ImageOrientationPatient := Some (1, 0, 0, 0, 1, 0)%Q;
     PixelSpacing := Some (2, 3)%Q;
     SpacingBetweenSlices := None;
     ImagePositionPatient := Some (10, 20, 30)%Q;
     SeriesNumber := None; ImageType := None; SequenceName := None;
     SeriesInstanceID := None; EchoNumbers := None; InstanceNumber := None;
     RescaleSlope := None; RescaleIntercept := None;
     pixel_array :=
       Some (IntPixels int16 {| shape := [N.to_nat rows; N.to_nat cols];
                          buf := repeat 7%Z (N.to_nat rows * N.to_nat cols) |});
     csa_image_header := None |}.

(** * Properties *)

(** ** Index arithmetic of row-major arrays *)

Unset Implicit Arguments.

Section NdArrayFacts.

Context {A : Type}.

Lemma flat_map_uniform_length {B C : Type} (g : B -> list C) (P : nat) (l : list B) :
  (forall x, length (g x) = P) ->
  length (flat_map g l) = (length l * P)%nat.
Proof.
  intros Hg. induction l as [|x l IH]; cbn [flat_map length]; [reflexivity|].
  rewrite length_app, Hg, IH. lia.
Qed.

Lemma nth_error_flat_map_uniform {B C : Type} (g : B -> list C) (P : nat) :
  (forall x, length (g x) = P) ->
  forall (l : list B) (i o : nat), (o < P)%nat ->
    nth_error (flat_map g l) (i * P + o)
    = match nth_error l i with
      | Some x => nth_error (g x) o
      | None => None
      end.
Proof.
  intros Hg l. induction l as [|x l IH]; intros i o Ho.
  - cbn [flat_map]. destruct i; destruct (_ + _)%nat; reflexivity.
  - cbn [flat_map]. destruct i as [|i].
    + cbn [Nat.mul Nat.add nth_error].
      apply nth_error_app1. rewrite Hg. exact Ho.
    + rewrite nth_error_app2 by (rewrite Hg; lia).
      rewrite Hg. replace (S i * P + o - P)%nat with (i * P + o)%nat by lia.
      cbn [nth_error]. apply IH. exact Ho.
Qed.

Lemma indices_length (s : list nat) : length (indices s) = numel s.
Proof.
  induction s as [|d s IH]; [reflexivity|].
  cbn [indices numel fold_right].
  rewrite (flat_map_uniform_length _ (numel s)).
  - rewrite length_seq. reflexivity.
  - intros x. rewrite length_map. exact IH.
Qed.

Lemma offset_lt (s idx : list nat) :
  in_bounds s idx = true -> (offset s idx < numel s)%nat.
Proof.
  revert idx. induction s as [|d s IH]; intros [|i idx] Hb; try discriminate.
  - cbn. lia.
  - cbn [in_bounds] in Hb. apply andb_true_iff in Hb. destruct Hb as (Hi & Hb).
    apply Nat.ltb_lt in Hi. specialize (IH idx Hb).
    cbn [offset numel fold_right]. fold (numel s). nia.
Qed.

Lemma nth_error_indices (s idx : list nat) :
  in_bounds s idx = true ->
  nth_error (indices s) (offset s idx) = Some idx.
Proof.
  revert idx. induction s as [|d s IH]; intros [|i idx] Hb; try discriminate.
  - reflexivity.
  - cbn [in_bounds] in Hb. apply andb_true_iff in Hb. destruct Hb as (Hi & Hb).
    apply Nat.ltb_lt in Hi.
    cbn [indices offset].
    rewrite (nth_error_flat_map_uniform _ (numel s)).
    + rewrite (nth_error_nth' _ 0%nat) by (rewrite length_seq; exact Hi).
      rewrite seq_nth by exact Hi. cbn [Nat.add].
      rewrite nth_error_map, (IH idx Hb). reflexivity.
    + intros x. rewrite length_map. apply indices_length.
    + apply offset_lt. exact Hb.
Qed.


Lemma transpose_length (axes : list nat) (a : ndarray A) :
  wf_array a ->
  numel (permute axes (shape a)) = numel (shape a) ->
  length (buf (transpose axes a)) = numel (shape a).
Proof.
  unfold wf_array, transpose. intros Hwf Hperm. cbn [buf].
  destruct (buf a) as [|d l] eqn:E.
  - exact Hwf.
  - rewrite length_map, indices_length. exact Hperm.
Qed.

Lemma transpose_nth_error (axes : list nat) (a : ndarray A) (idx' : list nat) (x : A) :
  wf_array a ->
  in_bounds (permute axes (shape a)) idx' = true ->
  nth_error (buf a) (offset (shape a) (unpermute axes idx')) = Some x ->
  nth_error (buf (transpose axes a)) (offset (permute axes (shape a)) idx') = Some x.
Proof.
  unfold transpose. intros Hwf Hb Hx. cbn [buf].
  destruct (buf a) as [|d l] eqn:E.
  - destruct (offset (shape a) (unpermute axes idx')); discriminate.
  - rewrite nth_error_map, (nth_error_indices _ _ Hb). cbn [option_map].
    f_equal. apply nth_error_nth. exact Hx.
Qed.

Lemma nth_error_firstn_lt (l : list A) (k m : nat) :
  (k < m)%nat -> nth_error (firstn m l) k = nth_error l k.
Proof.
  revert l k. induction m as [|m IH]; intros l k Hk; [lia|].
  destruct l as [|x l]; [destruct k; reflexivity|].
  destruct k as [|k]; [reflexivity|].
  cbn [firstn nth_error]. apply IH. lia.
Qed.

Ltac ltb_true :=
  repeat match goal with
         | |- context [(?x <? ?y)%nat] =>
             replace (x <? y)%nat with true
               by (symmetry; apply Nat.ltb_lt; assumption)
         end.

(** Tile [i] of the grid sits at grid row [i / mosaic_size] and grid column
    [i mod mosaic_size]. *)
Lemma unmosaic_spec (ms nr nc n : nat) (data : ndarray A) :
  shape data = [(ms * nr)%nat; (ms * nc)%nat] ->
  wf_array data ->
  (n <= ms * ms)%nat ->
  exists v3,
    unmosaic ms nr nc n data = Ok v3
    /\ shape v3 = [n; nr; nc]
    /\ wf_array v3
    /\ forall i r c, (i < n)%nat -> (r < nr)%nat -> (c < nc)%nat ->
         exists x,
           item v3 [i; r; c] = Some x
           /\ item data [(i / ms * nr + r)%nat; (i mod ms * nc + c)%nat] = Some x.
Proof.
  intros Hshape Hwf Hn.
  assert (Hlen : length (buf data) = (ms * nr * (ms * nc))%nat).
  { unfold wf_array in Hwf. rewrite Hwf, Hshape. cbn. lia. }
  unfold unmosaic, reshape at 1.
  replace (numel [ms; nr; ms; nc] =? length (buf data))%nat with true
    by (symmetry; apply Nat.eqb_eq; rewrite Hlen; cbn; lia).
  cbn [bind].
  set (v4 := {| shape := [ms; nr; ms; nc]; buf := buf data |}).
  assert (Hwf4 : wf_array v4).
  { unfold wf_array, v4. cbn [buf shape]. rewrite Hlen. cbn. lia. }
  change (rollaxis v4 2 1) with (Ok (transpose [0; 2; 1; 3]%nat v4)).
  cbn [bind].
  assert (Hlen4 : length (buf (transpose [0; 2; 1; 3]%nat v4)) = (ms * nr * (ms * nc))%nat).
  { rewrite transpose_length; [cbn; lia | exact Hwf4 | cbn; lia]. }
  unfold reshape.
  replace (numel [(ms * ms)%nat; nr; nc] =? length (buf (transpose [0; 2; 1; 3]%nat v4)))%nat
    with true by (symmetry; apply Nat.eqb_eq; rewrite Hlen4; cbn; lia).
  cbn [bind].
  eexists. split; [reflexivity|].
  unfold take_first. cbn [shape buf].
  rewrite (Nat.min_l n (ms * ms)) by exact Hn.
  split; [reflexivity|]. split.
  - unfold wf_array. cbn [shape buf].
    rewrite length_firstn, Hlen4. cbn [numel fold_right].
    pose proof (Nat.mul_le_mono_r n (ms * ms) (nr * nc) Hn). lia.
  - intros i r c Hi Hr Hc.
    assert (Hms : ms <> 0%nat) by (intros E0; rewrite E0 in Hn; cbn in Hn; lia).
    pose proof (Nat.div_mod_eq i ms) as Hdm.
    pose proof (Nat.mod_upper_bound i ms Hms) as Hb.
    assert (Ha : (i / ms < ms)%nat) by (apply Nat.Div0.div_lt_upper_bound; lia).
    set (a := (i / ms)%nat) in *. set (b := (i mod ms)%nat) in *.
    clearbody a b.
    assert (Hin4 : in_bounds [ms; nr; ms; nc] [a; r; b; c] = true)
      by (cbn [in_bounds]; ltb_true; reflexivity).
    assert (Hin4' : in_bounds [ms; ms; nr; nc] [a; b; r; c] = true)
      by (cbn [in_bounds]; ltb_true; reflexivity).
    assert (Hin3 : in_bounds [n; nr; nc] [i; r; c] = true)
      by (cbn [in_bounds]; ltb_true; reflexivity).
    assert (Hoff : (offset [ms; nr; ms; nc] [a; r; b; c] < length (buf data))%nat).
    { pose proof (offset_lt _ _ Hin4) as Hlt. rewrite Hlen.
      cbn [numel fold_right] in Hlt. lia. }
    destruct (nth_error (buf data) (offset [ms; nr; ms; nc] [a; r; b; c])) as [x|] eqn:Ex;
      [|apply nth_error_None in Ex; lia].
    exists x. split.
    + unfold item. cbn [shape buf]. rewrite Hin3.
      rewrite nth_error_firstn_lt
        by (pose proof (offset_lt _ _ Hin3) as Hlt;
            cbn [numel fold_right] in Hlt; exact Hlt).
      replace (offset [n; nr; nc] [i; r; c])
        with (offset (permute [0; 2; 1; 3]%nat (shape v4)) [a; b; r; c])
        by (cbn [permute map shape v4 nth offset numel fold_right];
            rewrite Hdm; lia).
      apply transpose_nth_error; [exact Hwf4 | exact Hin4' | exact Ex].
    + unfold item. rewrite Hshape. cbn [in_bounds].
      replace (a * nr + r <? ms * nr)%nat with true by (symmetry; apply Nat.ltb_lt; nia).
      replace (b * nc + c <? ms * nc)%nat with true by (symmetry; apply Nat.ltb_lt; nia).
      cbn [andb]. rewrite <- Ex. f_equal.
      cbn [offset numel fold_right]. lia.
Qed.

End NdArrayFacts.

Set Implicit Arguments.


Section Properties.

Context {F : Type} `{Num F}.

Local Open Scope num_scope.

(** ** Small arrays *)

Lemma transpose3_involutive (m : mat3 F) : transpose3 (transpose3 m) = m.
Proof.
  destruct m as [[[[a b] c] [[d e] f]] [[g h] i]].
  reflexivity.
Qed.

Lemma assemble_rotation_cols (iop : mat32 F) (s_norm : vec3 F) :
  m3col (assemble_rotation iop s_norm) 0 = m32col iop 0
  /\ m3col (assemble_rotation iop s_norm) 1 = m32col iop 1
  /\ m3col (assemble_rotation iop s_norm) 2 = s_norm.
Proof.
  destruct iop as [[[a0 b0] [a1 b1]] [a2 b2]].
  destruct s_norm as [[n0 n1] n2].
  repeat split.
Qed.

Lemma all2_cons (p : F -> F -> bool) x xs y ys :
  all2 p (x :: xs) (y :: ys) = p x y && all2 p xs ys.
Proof. reflexivity. Qed.

(** The check of [rotation_matrix], entry by entry. *)
Lemma is_rotation_entries (R : mat3 F) :
  is_rotation R = true ->
  forall i j, (i < 3)%nat -> (j < 3)%nat ->
    isclose default_rtol (lit (1 # 1000000))
            (m3get eye3 i j) (m3get (dot3 R (transpose3 R)) i j) = true.
Proof.
  unfold is_rotation, allclose.
  generalize (dot3 R (transpose3 R)); intros M.
  destruct M as [[[[m00 m01] m02] [[m10 m11] m12]] [[m20 m21] m22]].
  cbn [mat3_list vec3_list eye3 app].
  rewrite !all2_cons, !andb_true_iff.
  intros (H00 & H01 & H02 & H10 & H11 & H12 & H20 & H21 & H22 & _) i j Hi Hj.
  destruct i as [|[|[|i]]]; destruct j as [|[|[|j]]]; try lia; assumption.
Qed.

Lemma slice_normal_of_iop (w : wrapper F) (iop : mat32 F) :
  image_orient_patient w = Some iop ->
  exists s_norm, slice_normal w = Some s_norm.
Proof.
  intros Hiop. unfold slice_normal. rewrite Hiop.
  destruct (csa_of w) as [c|]; [destruct (csa_slice_normal c) as [n|]|]; eauto.
Qed.

Lemma slice_normal_base (d : dcm_data F) (iop : mat32 F) :
  image_orient_patient (Wrapper d) = Some iop ->
  slice_normal (Wrapper d) = Some (cross (m32col iop 0) (m32col iop 1)).
Proof.
  intros Hiop. unfold slice_normal. rewrite Hiop. reflexivity.
Qed.

(** ** The rotation matrix *)

(** C4 (amended). For every wrapper whose image orientation is available the
    slice normal is available too, and [rotation_matrix] is the matrix [R] with
    columns orientation column 0, orientation column 1 and slice normal,
    provided [R] passes the check [np.allclose(np.eye(3), np.dot(R, R.T),
    atol=1e-6)]; otherwise the assertion fails. A returned matrix satisfies
    the check entry by entry, the tolerance being numpy's
    [atol + rtol * |entry of R.R^T|] with [rtol] at its default 1e-5. When
    the orientation or the slice normal is [None], [rotation_matrix] is
    [None]. *)
Theorem rotation_matrix_spec (w : wrapper F) :
  (forall iop, image_orient_patient w = Some iop ->
     exists s_norm, slice_normal w = Some s_norm /\
       m3col (assemble_rotation iop s_norm) 0 = m32col iop 0 /\
       m3col (assemble_rotation iop s_norm) 1 = m32col iop 1 /\
       m3col (assemble_rotation iop s_norm) 2 = s_norm /\
       (is_rotation (assemble_rotation iop s_norm) = true ->
        rotation_matrix w = Ok (Some (assemble_rotation iop s_norm))) /\
       (is_rotation (assemble_rotation iop s_norm) = false ->
        rotation_matrix w = Raise AssertionError)) /\
  (forall R, rotation_matrix w = Ok (Some R) ->
     forall i j, (i < 3)%nat -> (j < 3)%nat ->
       isclose default_rtol (lit (1 # 1000000))
               (m3get eye3 i j) (m3get (dot3 R (transpose3 R)) i j) = true) /\
  (image_orient_patient w = None \/ slice_normal w = None ->
   rotation_matrix w = Ok None).
Proof.
  repeat split.
  - intros iop Hiop.
    destruct (slice_normal_of_iop w Hiop) as [s_norm Hn].
    exists s_norm.
    destruct (assemble_rotation_cols iop s_norm) as (C0 & C1 & C2).
    repeat split; try assumption.
    + intros Hrot. unfold rotation_matrix. rewrite Hiop, Hn, Hrot. reflexivity.
    + intros Hrot. unfold rotation_matrix. rewrite Hiop, Hn, Hrot. reflexivity.
  - intros R HR.
    apply is_rotation_entries.
    unfold rotation_matrix in HR.
    destruct (image_orient_patient w) as [iop|]; [|discriminate].
    destruct (slice_normal w) as [s_norm|]; [|discriminate].
    destruct (is_rotation (assemble_rotation iop s_norm)) eqn:E; [|discriminate].
    injection HR as <-. exact E.
  - intros [Hnone | Hnone]; unfold rotation_matrix; rewrite Hnone.
    + reflexivity.
    + destruct (image_orient_patient w); reflexivity.
Qed.

(** ** The affine *)

Lemma scale_cols3_entries (R : mat3 F) (vox : vec3 F) (i j : nat) :
  (i < 3)%nat -> (j < 3)%nat ->
  m3get (scale_cols3 R vox) i j = m3get R i j * v3get vox j.
Proof.
  destruct R as [[[[m00 m01] m02] [[m10 m11] m12]] [[m20 m21] m22]].
  destruct vox as [[v0 v1] v2].
  intros Hi Hj.
  destruct i as [|[|[|i]]]; destruct j as [|[|[|j]]]; try lia; reflexivity.
Qed.

Lemma assemble_affine_entries (B : mat3 F) (ipp : vec3 F) :
  (forall i j, (i < 3)%nat -> (j < 3)%nat ->
     m4get (assemble_affine B ipp) i j = m3get B i j)
  /\ (forall i, (i < 3)%nat -> m4get (assemble_affine B ipp) i 3 = v3get ipp i)
  /\ m4row (assemble_affine B ipp) 3 = (of_Z 0, of_Z 0, of_Z 0, of_Z 1).
Proof.
  destruct B as [[[[m00 m01] m02] [[m10 m11] m12]] [[m20 m21] m22]].
  destruct ipp as [[p0 p1] p2].
  repeat split.
  - intros i j Hi Hj.
    destruct i as [|[|[|i]]]; destruct j as [|[|[|j]]]; try lia; reflexivity.
  - intros i Hi. destruct i as [|[|[|i]]]; try lia; reflexivity.
Qed.

(** C3 (amended). When the orthonormality assertion of [rotation_matrix]
    fails, [get_affine] fails with that assertion. Otherwise it raises the
    error "Not enough information for affine" if and only if at least one of
    [rotation_matrix], [voxel_sizes], [image_position] is [None]; and when
    none is, it returns the 4x4 matrix whose upper-left 3x3 block is the
    rotation matrix with column [j] scaled by [voxel_sizes[j]], whose last
    column holds [image_position] in rows 0-2, and whose bottom row is
    [0, 0, 0, 1]. *)
Theorem get_affine_spec (w : wrapper F) :
  (forall e, rotation_matrix w = Raise e -> get_affine w = Raise e) /\
  (forall orient, rotation_matrix w = Ok orient ->
     (get_affine w = Raise (WrapperError "Not enough information for affine")
      <-> orient = None \/ voxel_sizes w = None \/ image_position w = None)) /\
  (forall R vox ipp,
     rotation_matrix w = Ok (Some R) ->
     voxel_sizes w = Some vox ->
     image_position w = Some ipp ->
     exists aff, get_affine w = Ok aff /\
       (forall i j, (i < 3)%nat -> (j < 3)%nat ->
          m4get aff i j = m3get R i j * v3get vox j) /\
       (forall i, (i < 3)%nat -> m4get aff i 3 = v3get ipp i) /\
       m4row aff 3 = (of_Z 0, of_Z 0, of_Z 0, of_Z 1)).
Proof.
  split; [|split].
  - intros e He. unfold get_affine. rewrite He. reflexivity.
  - intros orient Ho. unfold get_affine. rewrite Ho. cbn [bind].
    destruct orient as [R|]; [|split; auto].
    destruct (voxel_sizes w) as [vox|]; [|split; auto].
    destruct (image_position w) as [ipp|]; [|split; auto].
    split; [discriminate|].
    intros [E | [E | E]]; discriminate.
  - intros R vox ipp HR Hv Hp.
    exists (assemble_affine (scale_cols3 R vox) ipp).
    unfold get_affine. rewrite HR, Hv, Hp. cbn [bind].
    destruct (assemble_affine_entries (scale_cols3 R vox) ipp) as (E1 & E2 & E3).
    repeat split; try assumption.
    intros i j Hi Hj. rewrite E1 by assumption.
    apply scale_cols3_entries; assumption.
Qed.

(** X5. Missing data propagates: without [ImageOrientationPatient] the
    orientation, the slice normal of a plain wrapper and the rotation matrix
    are [None], and [get_affine] raises its insufficient-geometry error. *)
Lemma missing_orientation_propagates (d : dcm_data F) :
  ImageOrientationPatient d = None ->
  image_orient_patient (Wrapper d) = None
  /\ slice_normal (Wrapper d) = None
  /\ slice_indicator (Wrapper d) = None
  /\ rotation_matrix (Wrapper d) = Ok None
  /\ get_affine (Wrapper d)
     = Raise (WrapperError "Not enough information for affine").
Proof.
  intros E.
  assert (Hiop : image_orient_patient (Wrapper d) = None)
    by (unfold image_orient_patient; cbn [get_dcm]; rewrite E; reflexivity).
  assert (Hn : slice_normal (Wrapper d) = None)
    by (unfold slice_normal; rewrite Hiop; reflexivity).
  assert (HR : rotation_matrix (Wrapper d) = Ok None)
    by (unfold rotation_matrix; rewrite Hiop; reflexivity).
  repeat split; try assumption.
  - unfold slice_indicator. rewrite Hn.
    destruct (image_position (Wrapper d)); reflexivity.
  - unfold get_affine. rewrite HR. reflexivity.
Qed.

(** ** Rescaling *)

(** The plain formula [data * slope + intercept] promotes an integer block as
    soon as the slope is a float, even the float 1.0. *)
Lemma naive_rescale_promotes (t : int_type) (a : ndarray Z) (f : F)
    (offset : scalar F) :
  is_int_pixels (pix_add (pix_mul (IntPixels t a) (SFloat f)) offset) = false.
Proof. destruct offset; reflexivity. Qed.

(** *** Fixed-width integer arithmetic *)

Ltac cmp_cases :=
  repeat match goal with
  | |- context [Z.ltb ?a ?b] => destruct (Z.ltb_spec a b)
  | |- context [Z.leb ?a ?b] => destruct (Z.leb_spec a b)
  | H : context [Z.ltb ?a ?b] |- _ => destruct (Z.ltb_spec a b)
  | H : context [Z.leb ?a ?b] |- _ => destruct (Z.leb_spec a b)
  end.

Lemma result_type_fits (t : int_type) (k : Z) :
  fits t k = true -> result_type t k = ToInt t.
Proof.
  destruct t as [[|] [| | |]];
    unfold result_type, min_unsigned_width, min_signed_width, promote_mixed,
      fits, int_min, int_max, width_max, width_double, signed_of, unsigned_of,
      int8, int16, int32, int64;
    cbn -[Z.ltb Z.leb];
    intros Hfit; cmp_cases; cbn in *; try discriminate; try lia; try reflexivity.
Qed.

Lemma wrap_range (t : int_type) (x : Z) :
  (int_min t <= wrap t x <= int_max t)%Z.
Proof.
  destruct t as [[|] [| | |]]; unfold wrap, int_min, int_max; cbn -[Z.modulo];
    match goal with |- context [Z.modulo ?a ?m] =>
      pose proof (Z.mod_pos_bound a m ltac:(lia)) end; lia.
Qed.

Lemma wrap_congruent (t : int_type) (x : Z) :
  ((wrap t x - x) mod 2 ^ bits (int_width t) = 0)%Z.
Proof.
  assert (Hm : (0 < 2 ^ bits (int_width t))%Z)
    by (destruct t as [sg []]; cbn; lia).
  unfold wrap. cbv zeta. set (m := (2 ^ bits (int_width t))%Z) in *.
  destruct (int_signed t).
  - rewrite (Z.mod_eq (x + m / 2) m) by lia.
    replace (x + m / 2 - m * ((x + m / 2) / m) - m / 2 - x)%Z
      with ((- ((x + m / 2) / m)) * m)%Z by lia.
    apply Z.mod_mul. lia.
  - rewrite (Z.mod_eq x m) by lia.
    replace (x - m * (x / m) - x)%Z with ((- (x / m)) * m)%Z by lia.
    apply Z.mod_mul. lia.
Qed.

Lemma wrap_fits (t : int_type) (x : Z) :
  fits t x = true -> wrap t x = x.
Proof.
  destruct t as [[|] [| | |]]; unfold fits, wrap, int_min, int_max;
    cbn -[Z.modulo Z.leb]; intros Hfit; cmp_cases; cbn in *; try discriminate;
    try (rewrite Z.mod_small by lia; lia).
Qed.

(** C5. [_scale_data], the rescale [get_data] applies: the data comes back
    unchanged, numeric type included, when the slope equals 1 and the
    intercept equals 0; it is [data * slope] with no addition when the
    intercept equals 0 and the slope differs from 1; it is
    [data * slope + intercept] when both differ, and [data + intercept] when
    only the intercept differs. Outside mosaics [get_data] is this rescale of
    the pixel array. The products and sums are entry by entry: in the float
    type for a float block and for an integer block against a float; in the
    block's own integer type, wrapping around, for an integer block against
    an [int] that fits this type. Wrapping keeps a value inside the type's
    range, changes it by a multiple of [2^bits] and leaves a value already in
    range alone. *)
Theorem scale_data_spec (w : wrapper F) (data : pixels F) :
  (scalar_eqb (rescale_slope w) (SInt 1) = true ->
   scalar_eqb (rescale_intercept w) (SInt 0) = true ->
   _scale_data w data = data
   /\ is_int_pixels (_scale_data w data) = is_int_pixels data) /\
  (scalar_eqb (rescale_slope w) (SInt 1) = false ->
   scalar_eqb (rescale_intercept w) (SInt 0) = true ->
   _scale_data w data = pix_mul data (rescale_slope w)) /\
  (scalar_eqb (rescale_slope w) (SInt 1) = false ->
   scalar_eqb (rescale_intercept w) (SInt 0) = false ->
   _scale_data w data
   = pix_add (pix_mul data (rescale_slope w)) (rescale_intercept w)) /\
  (scalar_eqb (rescale_slope w) (SInt 1) = true ->
   scalar_eqb (rescale_intercept w) (SInt 0) = false ->
   _scale_data w data = pix_add data (rescale_intercept w)) /\
  (is_mosaic w = false -> pixel_array (get_dcm w) = Some data ->
   get_data w = Ok (_scale_data w data)) /\
  (forall (a : ndarray F) (s : scalar F),
     pix_mul (FloatPixels a) s
     = FloatPixels {| shape := shape a;
                      buf := map (fun x => x * scalar_val s) (buf a) |}
     /\ pix_add (FloatPixels a) s
        = FloatPixels {| shape := shape a;
                         buf := map (fun x => x + scalar_val s) (buf a) |}) /\
  (forall (t : int_type) (a : ndarray Z) (f : F),
     pix_mul (IntPixels t a) (SFloat f)
     = FloatPixels {| shape := shape a;
                      buf := map (fun x => of_Z x * f) (buf a) |}
     /\ pix_add (IntPixels t a) (SFloat f)
        = FloatPixels {| shape := shape a;
                         buf := map (fun x => of_Z x + f) (buf a) |}) /\
  (forall (t : int_type) (a : ndarray Z) (k : Z),
     fits t k = true ->
     pix_mul (IntPixels t a) (SInt k)
     = IntPixels t {| shape := shape a;
                      buf := map (fun x => wrap t (x * k)%Z) (buf a) |}
     /\ pix_add (IntPixels t a) (SInt k)
        = IntPixels t {| shape := shape a;
                         buf := map (fun x => wrap t (x + k)%Z) (buf a) |}) /\
  (forall (t : int_type) (x : Z),
     (int_min t <= wrap t x <= int_max t)%Z
     /\ ((wrap t x - x) mod 2 ^ bits (int_width t) = 0)%Z
     /\ (fits t x = true -> wrap t x = x)).
Proof.
  split; [|split; [|split; [|split; [|split; [|split; [|split; [|split]]]]]]].
  - unfold _scale_data. intros Hs Ho. rewrite Hs, Ho. split; reflexivity.
  - unfold _scale_data. intros Hs Ho. rewrite Hs, Ho. reflexivity.
  - unfold _scale_data. intros Hs Ho. rewrite Hs, Ho. reflexivity.
  - unfold _scale_data. intros Hs Ho. rewrite Hs, Ho. reflexivity.
  - intros Hm Hp.
    destruct w; try discriminate;
      cbn [get_data]; unfold get_pixel_array; rewrite Hp; reflexivity.
  - intros a s. destruct s; split; reflexivity.
  - intros t a f. split; reflexivity.
  - intros t a k Hfit. cbn [pix_mul pix_add].
    rewrite (result_type_fits t k Hfit). split; reflexivity.
  - intros t x. split; [apply wrap_range|split; [apply wrap_congruent|]].
    apply wrap_fits.
Qed.

(** ** Diffusion parameters *)

Context {U : NumericUtils F}.

(** C6. For a vendor wrapper whose sub-header has no b-matrix: with no
    b-value either, [b_matrix] is [None]; with a b-value different from zero,
    evaluating [b_matrix] raises [CSAError]; with a b-value equal to zero,
    [b_matrix] is the 3x3 zero matrix. And [q_vector] is [None] whenever
    [b_matrix] is [None]. *)
Theorem b_matrix_without_recorded_matrix (w : wrapper F) (hdr : csa_header F) :
  csa_of w = Some hdr ->
  (csa_b_matrix hdr = None ->
     (csa_b_value hdr = None -> b_matrix w = Ok None) /\
     (forall bval, csa_b_value hdr = Some bval ->
        scalar_eqb bval (SInt 0) = false ->
        b_matrix w = Raise (CSAError "No B matrix and b value != 0")) /\
     (forall bval, csa_b_value hdr = Some bval ->
        scalar_eqb bval (SInt 0) = true ->
        b_matrix w = Ok (Some zeros3))) /\
  (b_matrix w = Ok None -> q_vector w = Ok None).
Proof.
  intros Hw. split.
  - intros HB. unfold b_matrix. rewrite Hw, HB.
    repeat split.
    + intros Hv. rewrite Hv. reflexivity.
    + intros bval Hv Hz. rewrite Hv, Hz. reflexivity.
    + intros bval Hv Hz. rewrite Hv, Hz. reflexivity.
  - intros Hb. unfold q_vector. rewrite Hb. reflexivity.
Qed.

(** C7. For a vendor wrapper whose sub-header holds the b-matrix [B] and whose
    rotation matrix [R] is available, [b_matrix] is [nearest_pos_semi_def]
    applied to [R^T . (B . R)]. *)
Theorem b_matrix_rotated (w : wrapper F) (hdr : csa_header F) (B R : mat3 F) :
  csa_of w = Some hdr ->
  csa_b_matrix hdr = Some B ->
  rotation_matrix w = Ok (Some R) ->
  b_matrix w = Ok (Some (nearest_pos_semi_def (dot3 (transpose3 R) (dot3 B R)))).
Proof.
  intros Hw HB HR. unfold b_matrix.
  rewrite Hw, HB, HR. cbn [bind].
  rewrite transpose3_involutive. reflexivity.
Qed.

(** ** The mosaic position *)

Lemma mosaic_image_position_formula (d : dcm_data F) (csa : csa_header F) (n : N)
  (p0 p1 p2 a0 a1 a2 b0 b1 b2 v0 v1 v2 : F) (rows cols : N) :
  ImagePositionPatient d = Some (p0, p1, p2) ->
  Rows d = Some rows ->
  Columns d = Some cols ->
  image_orient_patient (MosaicWrapper d csa n) = Some ((a0, b0), (a1, b1), (a2, b2)) ->
  voxel_sizes (MosaicWrapper d csa n) = Some (v0, v1, v2) ->
  image_position (MosaicWrapper d csa n)
  = Some (p0 + (a0 * v0 * ((of_N rows - of_N rows / of_N (mosaic_size_of n)) / of_Z 2)
                + b0 * v1 * ((of_N cols - of_N cols / of_N (mosaic_size_of n)) / of_Z 2)),
          p1 + (a1 * v0 * ((of_N rows - of_N rows / of_N (mosaic_size_of n)) / of_Z 2)
                + b1 * v1 * ((of_N cols - of_N cols / of_N (mosaic_size_of n)) / of_Z 2)),
          p2 + (a2 * v0 * ((of_N rows - of_N rows / of_N (mosaic_size_of n)) / of_Z 2)
                + b2 * v1 * ((of_N cols - of_N cols / of_N (mosaic_size_of n)) / of_Z 2))).
Proof.
  intros Hp Hr Hc Hi Hv.
  unfold image_position. rewrite Hp, Hr, Hc, Hi, Hv. reflexivity.
Qed.

Lemma mosaic_image_position_none (d : dcm_data F) (csa : csa_header F) (n : N) :
  ImagePositionPatient d = None \/ Rows d = None \/ Columns d = None
  \/ image_orient_patient (MosaicWrapper d csa n) = None
  \/ voxel_sizes (MosaicWrapper d csa n) = None ->
  image_position (MosaicWrapper d csa n) = None.
Proof.
  unfold image_position.
  intros [E | [E | [E | [E | E]]]]; rewrite E;
    repeat match goal with
           | |- context [match ?x with _ => _ end] => destruct x
           end; reflexivity.
Qed.

(** ** Volume matching *)

(** X4. [none_matcher] with the default comparison: two [None]s match, one
    [None] does not, two values match when they are equal. *)
Lemma none_matcher_examples :
  none_matcher (@None Z) None (fun x y => Ok (Z.eqb x y)) = Ok true
  /\ none_matcher None (Some 5%Z) (fun x y => Ok (Z.eqb x y)) = Ok false
  /\ none_matcher (Some 3%Z) (Some 3%Z) (fun x y => Ok (Z.eqb x y)) = Ok true
  /\ none_matcher (Some 3%Z) (Some 4%Z) (fun x y => Ok (Z.eqb x y)) = Ok false.
Proof. repeat split. Qed.

Lemma none_matcher_default (in1 in2 : option Z) :
  none_matcher in1 in2 (fun x y => Ok (Z.eqb x y)) = Ok (option_eqb Z.eqb in1 in2).
Proof. destruct in1, in2; reflexivity. Qed.

Lemma maybe_same_volume_as_steps (self other : wrapper F) :
  maybe_same_volume_as self other =
  if negb (matchers_eqb (_get_matchers self) (_get_matchers other)) then Ok false
  else
    orient_ok <- orientation_step self other ;;
    if negb orient_ok then Ok false
    else
      ice_ok <- ice_step self other ;;
      if negb ice_ok then Ok false
      else if instance_numbers_match self other then Ok false
           else if slice_indicators_equal self other then Ok false
                else Ok true.
Proof.
  unfold maybe_same_volume_as, orientation_step, ice_step,
    instance_numbers_match, slice_indicators_equal.
  rewrite none_matcher_default. reflexivity.
Qed.

Lemma maybe_same_volume_as_passed (self other : wrapper F) :
  earlier_steps_pass self other ->
  maybe_same_volume_as self other =
  Ok (negb (instance_numbers_match self other)
      && negb (slice_indicators_equal self other)).
Proof.
  intros (Hm & Ho & Hi).
  rewrite maybe_same_volume_as_steps, Hm, Ho, Hi. cbn [negb bind].
  destruct (instance_numbers_match self other);
    destruct (slice_indicators_equal self other); reflexivity.
Qed.

Lemma maybe_same_volume_as_true (self other : wrapper F) :
  maybe_same_volume_as self other = Ok true ->
  earlier_steps_pass self other
  /\ instance_numbers_match self other = false
  /\ slice_indicators_equal self other = false.
Proof.
  rewrite maybe_same_volume_as_steps. unfold earlier_steps_pass.
  destruct (matchers_eqb (_get_matchers self) (_get_matchers other));
    cbn [negb]; [|discriminate].
  destruct (orientation_step self other) as [[|]|e]; cbn [bind negb];
    try discriminate.
  destruct (ice_step self other) as [[|]|e]; cbn [bind negb];
    try discriminate.
  destruct (instance_numbers_match self other); [discriminate|].
  destruct (slice_indicators_equal self other); [discriminate|].
  intros _. repeat split.
Qed.

(** X3. The orientation step as the code runs it: [self]'s orientation is handed
    to [none_matcher] twice, so the outcome is decided by [self] alone until
    the two arrays are compared. *)
Lemma orientation_step_cases (self other : wrapper F) :
  (image_orient_patient self = None -> orientation_step self other = Ok true) /\
  (forall x, image_orient_patient self = Some x ->
     image_orient_patient other = None ->
     orientation_step self other = Raise TypeError) /\
  (forall x y, image_orient_patient self = Some x ->
     image_orient_patient other = Some y ->
     orientation_step self other
     = Ok (allclose default_rtol default_atol (mat32_list x) (mat32_list y))).
Proof.
  unfold orientation_step. repeat split.
  - intros E. rewrite E. reflexivity.
  - intros x E1 E2. rewrite E1, E2. reflexivity.
  - intros x y E1 E2. rewrite E1, E2. reflexivity.
Qed.

(** C1 (amended). The instance-number step disqualifies a pair whose
    [InstanceNumber] fields are both present and equal, and equally a pair
    whose fields are both absent: in either case the method does not return
    [True], and it returns [False] when the earlier steps pass. After the
    earlier steps the method returns [True] exactly when the instance numbers
    do not match (one is absent, or they differ) and the slice indicators
    differ. *)
Theorem instance_number_rule (self other : wrapper F) :
  ((exists n, InstanceNumber (get_dcm self) = Some n
              /\ InstanceNumber (get_dcm other) = Some n)
   \/ (InstanceNumber (get_dcm self) = None
       /\ InstanceNumber (get_dcm other) = None) ->
   maybe_same_volume_as self other <> Ok true
   /\ (earlier_steps_pass self other ->
       maybe_same_volume_as self other = Ok false)) /\
  (earlier_steps_pass self other ->
   (maybe_same_volume_as self other = Ok true
    <-> instance_numbers_match self other = false
        /\ slice_indicators_equal self other = false)).
Proof.
  split.
  - intros Hin.
    assert (Hmatch : instance_numbers_match self other = true).
    { unfold instance_numbers_match.
      destruct Hin as [(n & E1 & E2) | (E1 & E2)]; rewrite E1, E2; cbn.
      - apply Z.eqb_refl.
      - reflexivity. }
    split.
    + intros Htrue. apply maybe_same_volume_as_true in Htrue.
      destruct Htrue as (_ & Hno & _). congruence.
    + intros Hpass. rewrite (maybe_same_volume_as_passed Hpass), Hmatch.
      reflexivity.
  - intros Hpass. rewrite (maybe_same_volume_as_passed Hpass). split.
    + intros E. injection E as E. apply andb_true_iff in E.
      destruct E as (E1 & E2).
      apply negb_true_iff in E1. apply negb_true_iff in E2. auto.
    + intros (E1 & E2). rewrite E1, E2. reflexivity.
Qed.

(** X2. Two wrappers whose slice indicators are both [None] are never reported
    as possibly the same volume: the slice-indicator comparison finds the two
    [None] equal, so the method returns [False] when the earlier steps pass,
    also when the instance numbers differ, and never [True]. *)
Lemma no_indicator_never_same_volume (self other : wrapper F) :
  slice_indicator self = None ->
  slice_indicator other = None ->
  slice_indicators_equal self other = true
  /\ maybe_same_volume_as self other <> Ok true
  /\ (earlier_steps_pass self other ->
      maybe_same_volume_as self other = Ok false).
Proof.
  intros E1 E2.
  assert (Heq : slice_indicators_equal self other = true).
  { unfold slice_indicators_equal. rewrite E1, E2. reflexivity. }
  split; [exact Heq|split].
  - intros Htrue. apply maybe_same_volume_as_true in Htrue.
    destruct Htrue as (_ & _ & Hno). congruence.
  - intros Hpass. rewrite (maybe_same_volume_as_passed Hpass), Heq.
    apply f_equal, andb_false_r.
Qed.

(** ** Mosaic data *)

(** The grid holds all the tiles: [n_mosaic <= mosaic_size ^ 2]. *)
Lemma tile_count_fits (n : N) :
  (N.to_nat n <= N.to_nat (mosaic_size_of n) * N.to_nat (mosaic_size_of n))%nat.
Proof.
  unfold mosaic_size_of.
  destruct (N.eq_dec n 0) as [->|Hn]; [cbn; lia|].
  assert (Hpos : (0 < n)%N) by lia.
  destruct (N.sqrt_up_spec n Hpos) as [_ Hle].
  unfold N.square in Hle. lia.
Qed.

(** X1. [MosaicWrapper.get_data] fails when [image_shape] is [None]. Otherwise,
    on a well-formed packed block of [mosaic_size * n_rows] rows and
    [mosaic_size * n_cols] columns, it returns the rescaled stack whose first
    axis counts the tiles: the stack has shape [(n_mosaic, n_rows, n_cols)],
    entry [(i, r, c)] of the stack is entry [(r, c)] of tile [i] of the grid
    read in row-major order, and the padding tiles are gone. *)
Lemma mosaic_get_data_untiles (d : dcm_data F) (csa : csa_header F) (n : N) :
  (image_shape (MosaicWrapper d csa n) = None ->
   get_data (MosaicWrapper d csa n)
   = Raise (WrapperError "No valid information for image shape")) /\
  (forall (fr fc : F) (data : pixels F) (nr nc : nat),
     image_shape (MosaicWrapper d csa n) = Some (Shape3 fr fc n) ->
     pixel_array d = Some data ->
     as_dim fr = Ok nr ->
     as_dim fc = Ok nc ->
     pix_shape data = [(N.to_nat (mosaic_size_of n) * nr)%nat;
                       (N.to_nat (mosaic_size_of n) * nc)%nat] ->
     pix_wf data ->
     exists stack,
       get_data (MosaicWrapper d csa n) = Ok (_scale_data (MosaicWrapper d csa n) stack)
       /\ pix_shape stack = [N.to_nat n; nr; nc]
       /\ is_int_pixels stack = is_int_pixels data
       /\ forall i r c, (i < N.to_nat n)%nat -> (r < nr)%nat -> (c < nc)%nat ->
            exists x,
              pix_item stack [i; r; c] = Some x
              /\ pix_item data
                   [(i / N.to_nat (mosaic_size_of n) * nr + r)%nat;
                    (i mod N.to_nat (mosaic_size_of n) * nc + c)%nat] = Some x).
Proof.
  split.
  - intros E. cbn [get_data]. rewrite E. reflexivity.
  - intros fr fc data nr nc Hs Hp Hr Hc Hshape Hwf.
    cbn [get_data]. rewrite Hs. unfold get_pixel_array.
    cbn [get_dcm]. rewrite Hp. cbn [bind]. rewrite Hr, Hc. cbn [bind].
    destruct data as [t a | a | a]; cbn [pix_shape pix_wf] in Hshape, Hwf;
      destruct (unmosaic_spec _ _ _ _ a Hshape Hwf (tile_count_fits n))
        as (v3 & Hv3 & Hsh & _ & Hitems);
      cbn [pix_unmosaic]; rewrite Hv3; cbn [bind].
    + exists (IntPixels t v3). repeat split; [exact Hsh|].
      intros i r c Hi Hr' Hc'.
      destruct (Hitems i r c Hi Hr' Hc') as (x & E1 & E2).
      exists (SInt x). cbn [pix_item]. rewrite E1, E2. split; reflexivity.
    + exists (FloatPixels v3). repeat split; [exact Hsh|].
      intros i r c Hi Hr' Hc'.
      destruct (Hitems i r c Hi Hr' Hc') as (x & E1 & E2).
      exists (SFloat x). cbn [pix_item]. rewrite E1, E2. split; reflexivity.
    + exists (ObjPixels v3). repeat split; [exact Hsh|].
      intros i r c Hi Hr' Hc'.
      destruct (Hitems i r c Hi Hr' Hc') as (x & E1 & E2).
      exists x. cbn [pix_item]. rewrite E1, E2. split; reflexivity.
Qed.

End Properties.

(** * Evaluations on the concrete wrappers *)

(** C1, counterexample. Discriminator fields, orientation and vendor indices
    match, both instance numbers are absent and the slice indicators differ,
    yet the method returns [False]: the absent pair is disqualified. *)
Lemma absent_instance_numbers_disqualify :
  InstanceNumber (get_dcm slice_a) = None
  /\ InstanceNumber (get_dcm slice_b) = None
  /\ earlier_steps_pass slice_a slice_b
  /\ slice_indicators_equal slice_a slice_b = false
  /\ maybe_same_volume_as slice_a slice_b = Ok false.
Proof.
  split; [reflexivity|]. split; [reflexivity|].
  split; [repeat split; vm_compute; reflexivity|].
  split; vm_compute; reflexivity.
Qed.

(** C1 (amended) on the two unnumbered slices, on a slice against itself and
    on the two numbered slices. *)
Lemma instance_number_rule_witness :
  (maybe_same_volume_as slice_a slice_b <> Ok true
   /\ maybe_same_volume_as slice_a slice_b = Ok false)
  /\ (maybe_same_volume_as slice_1 slice_1 <> Ok true
      /\ maybe_same_volume_as slice_1 slice_1 = Ok false)
  /\ (maybe_same_volume_as slice_1 slice_2 = Ok true
      <-> instance_numbers_match slice_1 slice_2 = false
          /\ slice_indicators_equal slice_1 slice_2 = false).
Proof.
  assert (Pab : earlier_steps_pass slice_a slice_b)
    by (repeat split; vm_compute; reflexivity).
  assert (P11 : earlier_steps_pass slice_1 slice_1)
    by (repeat split; vm_compute; reflexivity).
  assert (P12 : earlier_steps_pass slice_1 slice_2)
    by (repeat split; vm_compute; reflexivity).
  split; [|split].
  - destruct (proj1 (instance_number_rule slice_a slice_b)
                (or_intror (conj eq_refl eq_refl))) as [Hne Hf].
    exact (conj Hne (Hf Pab)).
  - destruct (proj1 (instance_number_rule slice_1 slice_1)
                (or_introl (ex_intro _ 1%Z (conj eq_refl eq_refl)))) as [Hne Hf].
    exact (conj Hne (Hf P11)).
  - exact (proj2 (instance_number_rule slice_1 slice_2) P12).
Defined.

(** C2, the code at the failing input. Exactly one of the two orientations is
    [None]. With the unoriented slice as [self] the orientation step passes
    and the method returns [True]; with the roles exchanged the comparison of
    an array with [None] raises. The claim returns [False] in both. *)
Theorem orientation_step_one_sided :
  image_orient_patient slice_no_iop = None
  /\ image_orient_patient slice_2 <> None
  /\ maybe_same_volume_as slice_no_iop slice_2 = Ok true
  /\ maybe_same_volume_as slice_2 slice_no_iop = Raise TypeError.
Proof.
  split; [reflexivity|]. split; [discriminate|].
  split; vm_compute; reflexivity.
Qed.

(** X3 on the unoriented and the oriented slice. *)
Lemma orientation_step_cases_witness :
  orientation_step slice_no_iop slice_2 = Ok true
  /\ orientation_step slice_2 slice_no_iop = Raise TypeError
  /\ orientation_step slice_1 slice_2 = Ok true.
Proof.
  split; [|split].
  - exact (proj1 (orientation_step_cases slice_no_iop slice_2) eq_refl).
  - exact (proj1 (proj2 (orientation_step_cases slice_2 slice_no_iop))
             _ eq_refl eq_refl).
  - exact (proj2 (proj2 (orientation_step_cases slice_1 slice_2))
             _ _ eq_refl eq_refl).
Defined.

(** C10, the code at the failing input. Both slice indicators are [None]; the
    method does not return [False], it raises in the orientation step. *)
Theorem no_indicator_pair_raises :
  slice_indicator unplaced_oriented = None
  /\ slice_indicator unplaced_plain = None
  /\ maybe_same_volume_as unplaced_oriented unplaced_plain = Raise TypeError.
Proof. repeat split. Qed.

(** X2 on two unplaced, unoriented records with the instance numbers 2 and
    3: the instance-number step lets the pair through, and the comparison of
    the slice indicators rejects it. *)
Lemma no_indicator_never_same_volume_witness :
  instance_numbers_match unplaced_plain unplaced_next = false
  /\ slice_indicators_equal unplaced_plain unplaced_next = true
  /\ maybe_same_volume_as unplaced_plain unplaced_next <> Ok true
  /\ maybe_same_volume_as unplaced_plain unplaced_next = Ok false.
Proof.
  destruct (no_indicator_never_same_volume unplaced_plain unplaced_next
              eq_refl eq_refl) as (Heq & Hne & Hf).
  split; [reflexivity|split; [exact Heq|split; [exact Hne|]]].
  apply Hf. repeat split.
Defined.

(** C3, counterexample. [voxel_sizes] is [None], so one of the three
    constituents is [None]; yet [get_affine] does not raise the
    insufficient-geometry [WrapperError]: the orthonormality assertion of
    [rotation_matrix] fails first. *)
Lemma get_affine_assertion_first :
  voxel_sizes slice_bad = None
  /\ get_affine slice_bad = Raise AssertionError
  /\ ~ (get_affine slice_bad = Raise (WrapperError "Not enough information for affine")
        <-> (rotation_matrix slice_bad = Ok None
             \/ voxel_sizes slice_bad = None
             \/ image_position slice_bad = None)).
Proof.
  assert (Hv : voxel_sizes slice_bad = None) by reflexivity.
  assert (Hg : get_affine slice_bad = Raise AssertionError)
    by (vm_compute; reflexivity).
  repeat split; try assumption.
  intros [_ Hback].
  rewrite Hg in Hback.
  specialize (Hback (or_intror (or_introl Hv))). discriminate.
Qed.

(** C3 (amended) on the three slices: the assertion failure, the missing
    orientation, and the assembled affine. *)
Lemma get_affine_spec_witness :
  get_affine slice_bad = Raise AssertionError
  /\ (get_affine slice_no_iop = Raise (WrapperError "Not enough information for affine")
      <-> @None (mat3 float) = None \/ voxel_sizes slice_no_iop = None
          \/ image_position slice_no_iop = None)
  /\ exists aff, get_affine slice_good = Ok aff
       /\ (forall i j, (i < 3)%nat -> (j < 3)%nat ->
             m4get aff i j
             = fmul (m3get (fz 1, fz 0, fz 0, (fz 0, fz 1, fz 0), (fz 0, fz 0, fz 1)) i j)
                    (v3get (fz 2, fz 3, fz 1) j))
       /\ (forall i, (i < 3)%nat -> m4get aff i 3 = v3get (fz 10, fz 20, fz 30) i)
       /\ m4row aff 3 = (fz 0, fz 0, fz 0, fz 1).
Proof.
  split; [|split].
  - apply (proj1 (get_affine_spec slice_bad)). vm_compute. reflexivity.
  - apply (proj1 (proj2 (get_affine_spec slice_no_iop))). reflexivity.
  - exact (proj2 (proj2 (get_affine_spec slice_good))
             (fz 1, fz 0, fz 0, (fz 0, fz 1, fz 0), (fz 0, fz 0, fz 1))
             (fz 2, fz 3, fz 1) (fz 10, fz 20, fz 30)
             eq_refl eq_refl eq_refl).
Defined.

(** C4, counterexample. The matrix is returned, the assertion passes, and
    [R . R^T] is not within the absolute tolerance 1e-6 of the identity: its
    corner entry is off by 8e-6, which the relative term of [np.allclose]
    accepts. *)
Lemma rotation_outside_absolute_tolerance :
  rotation_matrix slice_stretched = Ok (Some stretched_rotation)
  /\ within_abs_tol (lit (1 # 1000000)) (mat3_list eye3)
       (mat3_list (dot3 stretched_rotation (transpose3 stretched_rotation)))
     = false
  /\ fleb (fabs (fsub (m3get eye3 0 0)
                      (m3get (dot3 stretched_rotation (transpose3 stretched_rotation)) 0 0)))
          (lit (7 # 1000000))
     = false.
Proof. repeat split; vm_compute; reflexivity. Qed.

(** C4 (amended) on an orthonormal orientation, a stretched one that is
    rejected, the accepted stretch of 1.000004, and a missing orientation. *)
Lemma rotation_matrix_spec_witness :
  (exists s_norm, slice_normal slice_good = Some s_norm
     /\ rotation_matrix slice_good
        = Ok (Some (assemble_rotation
                      ((fz 1, fz 0), (fz 0, fz 1), (fz 0, fz 0)) s_norm)))
  /\ (exists s_norm, slice_normal slice_bad = Some s_norm
        /\ rotation_matrix slice_bad = Raise AssertionError)
  /\ (forall i j, (i < 3)%nat -> (j < 3)%nat ->
        isclose default_rtol (lit (1 # 1000000)) (m3get eye3 i j)
          (m3get (dot3 stretched_rotation (transpose3 stretched_rotation)) i j)
        = true)
  /\ rotation_matrix slice_no_iop = Ok None.
Proof.
  split; [|split; [|split]].
  - destruct (proj1 (rotation_matrix_spec slice_good) _ eq_refl)
      as (s_norm & Hn & _ & _ & _ & Hyes & _).
    exists s_norm. split; [exact Hn|]. apply Hyes.
    vm_compute in Hn. injection Hn as <-. vm_compute. reflexivity.
  - destruct (proj1 (rotation_matrix_spec slice_bad) _ eq_refl)
      as (s_norm & Hn & _ & _ & _ & _ & Hno).
    exists s_norm. split; [exact Hn|]. apply Hno.
    vm_compute in Hn. injection Hn as <-. vm_compute. reflexivity.
  - apply (proj1 (proj2 (rotation_matrix_spec slice_stretched))).
    vm_compute. reflexivity.
  - apply (proj2 (proj2 (rotation_matrix_spec slice_no_iop))).
    left. reflexivity.
Defined.

(** C5 on a 2 x 2 integer block, one record per case; the slope 1.0 and the
    intercept 0.0 are floats and still leave the block untouched. *)
Lemma scale_data_spec_witness :
  _scale_data (Wrapper (pixel_record (Some (SInt 2)) None)) block_bright
  = IntPixels int16 {| shape := [2; 2]%nat; buf := [-5536; 200; -6; 8]%Z |} /\
  (_scale_data (Wrapper (pixel_record (Some (SFloat (fz 1))) None)) block_2x2 = block_2x2
   /\ is_int_pixels (_scale_data (Wrapper (pixel_record (Some (SFloat (fz 1))) None)) block_2x2)
      = true)
  /\ _scale_data (Wrapper (pixel_record (Some (SInt 2)) (Some (SFloat (fz 0))))) block_2x2
     = IntPixels int16 {| shape := [2; 2]%nat; buf := [2; 4; 6; 8]%Z |}
  /\ _scale_data (Wrapper (pixel_record (Some (SInt 2)) (Some (SInt 10)))) block_2x2
     = IntPixels int16 {| shape := [2; 2]%nat; buf := [12; 14; 16; 18]%Z |}
  /\ _scale_data (Wrapper (pixel_record None (Some (SInt 10)))) block_2x2
     = IntPixels int16 {| shape := [2; 2]%nat; buf := [11; 12; 13; 14]%Z |}
  /\ get_data (Wrapper (pixel_record None None)) = Ok block_2x2.
Proof.
  split; [|split; [|split; [|split; [|split]]]].
  - pose proof (scale_data_spec (Wrapper (pixel_record (Some (SInt 2)) None))
                  block_bright) as (_ & Hmul & _ & _ & _ & _ & _ & Hint & _).
    rewrite (Hmul eq_refl eq_refl).
    exact (proj1 (Hint int16 _ 2%Z eq_refl)).
  - exact (proj1 (scale_data_spec
                    (Wrapper (pixel_record (Some (SFloat (fz 1))) None)) block_2x2)
             eq_refl eq_refl).
  - exact (proj1 (proj2 (scale_data_spec
                    (Wrapper (pixel_record (Some (SInt 2)) (Some (SFloat (fz 0)))))
                    block_2x2))
             eq_refl eq_refl).
  - exact (proj1 (proj2 (proj2 (scale_data_spec
                    (Wrapper (pixel_record (Some (SInt 2)) (Some (SInt 10))))
                    block_2x2)))
             eq_refl eq_refl).
  - exact (proj1 (proj2 (proj2 (proj2 (scale_data_spec
                    (Wrapper (pixel_record None (Some (SInt 10)))) block_2x2))))
             eq_refl eq_refl).
  - exact (proj1 (proj2 (proj2 (proj2 (proj2 (scale_data_spec
                    (Wrapper (pixel_record None None)) block_2x2)))))
             eq_refl eq_refl).
Defined.

(** C6 on three vendor slices: no b-value, b-value 1000, b-value 0.0. *)
Lemma b_matrix_without_recorded_matrix_witness :
  (@b_matrix _ _ example_utils (siemens_slice None None) = Ok None
   /\ @q_vector _ _ example_utils (siemens_slice None None) = Ok None)
  /\ @b_matrix _ _ example_utils (siemens_slice None (Some (SInt 1000)))
     = Raise (CSAError "No B matrix and b value != 0")
  /\ @b_matrix _ _ example_utils (siemens_slice None (Some (SFloat (fz 0))))
     = Ok (Some zeros3).
Proof.
  pose proof (@b_matrix_without_recorded_matrix _ _ example_utils
                (siemens_slice None None) _ eq_refl) as [H0 Hq].
  pose proof (@b_matrix_without_recorded_matrix _ _ example_utils
                (siemens_slice None (Some (SInt 1000))) _ eq_refl) as [H1 _].
  pose proof (@b_matrix_without_recorded_matrix _ _ example_utils
                (siemens_slice None (Some (SFloat (fz 0)))) _ eq_refl) as [H2 _].
  split; [split|split].
  - exact (proj1 (H0 eq_refl) eq_refl).
  - exact (Hq (proj1 (H0 eq_refl) eq_refl)).
  - exact (proj1 (proj2 (H1 eq_refl)) _ eq_refl eq_refl).
  - exact (proj2 (proj2 (H2 eq_refl)) _ eq_refl eq_refl).
Defined.

(** C7 on an axial vendor slice, whose rotation matrix is the identity. *)
Lemma b_matrix_rotated_witness :
  @b_matrix _ _ example_utils (siemens_slice (Some recorded_b) None)
  = Ok (Some (@nearest_pos_semi_def _ example_utils
                (dot3 (transpose3 eye3) (dot3 recorded_b eye3)))).
Proof.
  exact (@b_matrix_rotated _ _ example_utils
           (siemens_slice (Some recorded_b) None) _ recorded_b eye3
           eq_refl eq_refl eq_refl).
Defined.

Lemma mosaic_192_position {F : Type} `{Num F} (csa : csa_header F) (n : N) :
  mosaic_size_of n = 2%N ->
  image_position (MosaicWrapper mosaic_192 csa n)
  = Some (vadd3 (of_Z 0, of_Z 0, of_Z 0)
            (dot32 (scale_cols32 ((of_Z 1, of_Z 0), (of_Z 0, of_Z 1), (of_Z 0, of_Z 0))
                                 (of_Z 1, of_Z 1, of_Z 1))
                   (vox_trans_fixes 192 192 2))).
Proof.
  intros Hn. cbn [image_position]. rewrite Hn. reflexivity.
Qed.

(** C8. For a mosaic wrapper with recorded position [p], [Rows], [Columns],
    orientation columns [a], [b] and voxel sizes [v] all available,
    [image_position] is [p + M . t], where [M] has the orientation columns
    scaled by [v0] and [v1] and
    [t = ((rows - rows / grid) / 2, (cols - cols / grid) / 2)]; when one of
    the five inputs is unavailable it is [None]. With 192 rows and columns, a
    grid of 2, identity orientation, unit voxels and recorded position
    (0, 0, 0) the position is (48, 48, 0), in binary64 and in exact
    arithmetic. *)
Theorem mosaic_image_position_spec :
  (forall (F : Type) (NF : Num F) (d : dcm_data F) (csa : csa_header F) (n : N),
     (forall (p0 p1 p2 a0 a1 a2 b0 b1 b2 v0 v1 v2 : F) (rows cols : N),
        ImagePositionPatient d = Some (p0, p1, p2) ->
        Rows d = Some rows ->
        Columns d = Some cols ->
        image_orient_patient (MosaicWrapper d csa n)
        = Some ((a0, b0), (a1, b1), (a2, b2)) ->
        voxel_sizes (MosaicWrapper d csa n) = Some (v0, v1, v2) ->
        image_position (MosaicWrapper d csa n)
        = Some
            (p0 + (a0 * v0 * ((of_N rows - of_N rows / of_N (mosaic_size_of n)) / of_Z 2)
                   + b0 * v1 * ((of_N cols - of_N cols / of_N (mosaic_size_of n)) / of_Z 2)),
             p1 + (a1 * v0 * ((of_N rows - of_N rows / of_N (mosaic_size_of n)) / of_Z 2)
                   + b1 * v1 * ((of_N cols - of_N cols / of_N (mosaic_size_of n)) / of_Z 2)),
             p2 + (a2 * v0 * ((of_N rows - of_N rows / of_N (mosaic_size_of n)) / of_Z 2)
                   + b2 * v1 * ((of_N cols - of_N cols / of_N (mosaic_size_of n)) / of_Z 2)))%num)
     /\ (ImagePositionPatient d = None \/ Rows d = None \/ Columns d = None
         \/ image_orient_patient (MosaicWrapper d csa n) = None
         \/ voxel_sizes (MosaicWrapper d csa n) = None ->
         image_position (MosaicWrapper d csa n) = None))
  /\ (forall (csa : csa_header float) (n : N),
        mosaic_size_of n = 2%N ->
        image_position (MosaicWrapper mosaic_192 csa n)
        = Some (float_of_Z 48, float_of_Z 48, float_of_Z 0))
  /\ (forall (csa : csa_header Q) (n : N),
        mosaic_size_of n = 2%N ->
        image_position (MosaicWrapper mosaic_192 csa n)
        = Some (inject_Z 48, inject_Z 48, inject_Z 0)).
Proof.
  split; [|split].
  - intros F NF d csa n. split.
    + intros. eapply mosaic_image_position_formula; eassumption.
    + apply mosaic_image_position_none.
  - intros csa n Hn. rewrite (mosaic_192_position csa n Hn).
    vm_compute. reflexivity.
  - intros csa n Hn. rewrite (mosaic_192_position csa n Hn).
    vm_compute. reflexivity.
Qed.

(** C8 on the position example with 4 and with 3 tiles, and on a record
    without recorded position. *)
Lemma mosaic_image_position_spec_witness :
  image_position (MosaicWrapper (@mosaic_192 float _) empty_csa 4)
  = Some (float_of_Z 48, float_of_Z 48, float_of_Z 0)
  /\ image_position (MosaicWrapper (@mosaic_192 Q _) empty_csa 3)
     = Some (inject_Z 48, inject_Z 48, inject_Z 0)
  /\ image_position
       (MosaicWrapper (slice_record (Some axial) None spacing23 None) empty_csa 4)
     = None.
Proof.
  split; [|split].
  - exact (proj1 (proj2 mosaic_image_position_spec) empty_csa 4%N eq_refl).
  - exact (proj2 (proj2 mosaic_image_position_spec) empty_csa 3%N eq_refl).
  - exact (proj2 (proj1 mosaic_image_position_spec float _
                    (slice_record (Some axial) None spacing23 None) empty_csa 4%N)
             (or_introl eq_refl)).
Defined.

(** C9, the code at the failing input. [image_shape] announces 2 rows, 1
    column and 3 tiles, in that order; the array [get_data] returns has the
    tiles on its first axis, shape (3, 2, 1), not (2, 1, 3). Slot [i] along
    the first axis is tile [i], and the padding tile is gone. *)
Theorem mosaic_stack_axis_order :
  image_shape mosaic_4x2 = Some (Shape3 (float_of_Z 2) (float_of_Z 1) 3)
  /\ get_data mosaic_4x2 = Ok stack_3x2x1
  /\ pix_shape stack_3x2x1 = [3; 2; 1]%nat
  /\ pix_shape stack_3x2x1 <> [2; 1; 3]%nat.
Proof.
  split; [vm_compute; reflexivity|].
  split; [vm_compute; reflexivity|].
  split; [reflexivity|discriminate].
Qed.

(** X1 on the mosaic of three tiles. *)
Lemma mosaic_get_data_untiles_witness :
  exists stack,
    get_data mosaic_4x2 = Ok (_scale_data mosaic_4x2 stack)
    /\ pix_shape stack = [3; 2; 1]%nat
    /\ is_int_pixels stack = true
    /\ forall i r c, (i < 3)%nat -> (r < 2)%nat -> (c < 1)%nat ->
         exists x,
           pix_item stack [i; r; c] = Some x
           /\ pix_item packed_4x2 [(i / 2 * 2 + r)%nat; (i mod 2 * 1 + c)%nat] = Some x.
Proof.
  exact (proj2 (mosaic_get_data_untiles
                  (get_dcm mosaic_4x2) (@empty_csa float) 3)
           (float_of_Z 2) (float_of_Z 1) packed_4x2 2%nat 1%nat
           eq_refl eq_refl eq_refl eq_refl eq_refl eq_refl).
Defined.

(** X5 on the slice without orientation. *)
Lemma missing_orientation_propagates_witness :
  rotation_matrix slice_no_iop = Ok None
  /\ get_affine slice_no_iop
     = Raise (WrapperError "Not enough information for affine").
Proof.
  destruct (missing_orientation_propagates
              (slice_record None (at_z 0) spacing23 (Some 1%Z)) eq_refl)
    as (_ & _ & _ & HR & Ha).
  exact (conj HR Ha).
Defined.

(** * Further properties *)

(** ** The un-tiling and the number of entries *)

Unset Implicit Arguments.

Section NdArraySizes.

Context {A : Type}.

(** The un-tiling looks at the number of entries only: it succeeds exactly
    when the block has [mosaic_size^2 * n_rows * n_cols] of them, whatever
    shape the block announces. *)
Lemma unmosaic_ok_iff (ms nr nc n : nat) (data : ndarray A) :
  (length (buf data) = (ms * nr * (ms * nc))%nat ->
   exists v3, unmosaic ms nr nc n data = Ok v3
              /\ shape v3 = [Nat.min n (ms * ms); nr; nc]
              /\ wf_array v3)
  /\ (length (buf data) <> (ms * nr * (ms * nc))%nat ->
      unmosaic ms nr nc n data = Raise ValueError).
Proof.
  split.
  - intros Hlen. unfold unmosaic, reshape at 1.
    replace (numel [ms; nr; ms; nc] =? length (buf data))%nat with true
      by (symmetry; apply Nat.eqb_eq; rewrite Hlen; cbn; lia).
    cbn [bind].
    set (v4 := {| shape := [ms; nr; ms; nc]; buf := buf data |}).
    assert (Hwf4 : wf_array v4).
    { unfold wf_array, v4. cbn [buf shape]. rewrite Hlen. cbn. lia. }
    change (rollaxis v4 2 1) with (Ok (transpose [0; 2; 1; 3]%nat v4)).
    cbn [bind].
    assert (Hlen4 : length (buf (transpose [0; 2; 1; 3]%nat v4))
                    = (ms * nr * (ms * nc))%nat).
    { rewrite transpose_length; [cbn; lia | exact Hwf4 | cbn; lia]. }
    unfold reshape.
    replace (numel [(ms * ms)%nat; nr; nc]
             =? length (buf (transpose [0; 2; 1; 3]%nat v4)))%nat
      with true by (symmetry; apply Nat.eqb_eq; rewrite Hlen4; cbn; lia).
    cbn [bind]. eexists. split; [reflexivity|].
    unfold take_first. cbn [shape buf]. split; [reflexivity|].
    unfold wf_array. cbn [shape buf].
    rewrite length_firstn, Hlen4. cbn [numel fold_right].
    pose proof (Nat.le_min_r n (ms * ms)) as Hmin.
    pose proof (Nat.mul_le_mono_r _ _ (nr * nc) Hmin). lia.
  - intros Hlen. unfold unmosaic, reshape at 1.
    replace (numel [ms; nr; ms; nc] =? length (buf data))%nat with false;
      [reflexivity|].
    symmetry. apply Nat.eqb_neq. intros E. apply Hlen. rewrite <- E. cbn. lia.
Qed.

End NdArraySizes.

Set Implicit Arguments.

Section FurtherProperties.

Context {F : Type} `{Num F}.

Local Open Scope num_scope.

(** ** Construction *)



(** ** The None-aware comparison *)

Lemma none_matcher_symmetric {A : Type} (f : A -> A -> result bool)
  (a b : option A) :
  (forall x y, f x y = f y x) ->
  none_matcher a b f = none_matcher b a f.
Proof. intros Hf. destruct a, b; cbn; auto. Qed.

(** X4. [none_matcher] with its default comparison decides equality of two
    optional integers: it answers [True] exactly when both are [None] or
    both hold the same number, [False] otherwise, never raises, and does not
    depend on the order of its two values. *)
Lemma none_matcher_decides_equality (in1 in2 : option Z) :
  (none_matcher in1 in2 (fun x y => Ok (Z.eqb x y)) = Ok true <-> in1 = in2)
  /\ (none_matcher in1 in2 (fun x y => Ok (Z.eqb x y)) = Ok false <-> in1 <> in2)
  /\ none_matcher in1 in2 (fun x y => Ok (Z.eqb x y))
     = none_matcher in2 in1 (fun x y => Ok (Z.eqb x y)).
Proof.
  split; [|split].
  - destruct in1 as [x|], in2 as [y|]; cbn; split; try discriminate; auto.
    + intros E. injection E as E. apply Z.eqb_eq in E. congruence.
    + intros E. injection E as <-. rewrite Z.eqb_refl. reflexivity.
  - destruct in1 as [x|], in2 as [y|]; cbn; split;
      try discriminate; try congruence; auto.
    + intros E. injection E as E. apply Z.eqb_neq in E. congruence.
    + intros E. f_equal. apply Z.eqb_neq. congruence.
  - apply none_matcher_symmetric. intros x y. rewrite Z.eqb_sym. reflexivity.
Qed.

(** ** Volume matching *)

(** X8. [_ice_matcher] indexes with the integer array
    [[1,1,1,1,1,1,0,0,1]], so it reads entries 1 and 0 only: on two lists
    of at least two entries it answers whether the first two entries agree,
    whatever follows them; a list of fewer than two entries raises
    [IndexError]. *)
Lemma ice_matcher_first_two :
  (forall (x0 x1 y0 y1 : string) (t u : list string),
     _ice_matcher (x0 :: x1 :: t) (y0 :: y1 :: u)
     = Ok (String.eqb x0 y0 && String.eqb x1 y1))
  /\ (forall ice1 ice2 : list string,
        (length ice1 < 2)%nat \/ (length ice2 < 2)%nat ->
        _ice_matcher ice1 ice2 = Raise IndexError).
Proof.
  split.
  - intros x0 x1 y0 y1 t u. unfold _ice_matcher. cbn.
    destruct (String.eqb x1 y1); destruct (String.eqb x0 y0); reflexivity.
  - intros ice1 ice2 [Hl | Hl].
    + destruct ice1 as [|x0 [|x1 t]]; cbn in Hl; try lia; reflexivity.
    + destruct ice2 as [|y0 [|y1 u]]; cbn in Hl; try lia;
        destruct ice1 as [|x0 [|x1 t]]; reflexivity.
Qed.

Lemma option_eqb_Z_refl (x : option Z) : option_eqb Z.eqb x x = true.
Proof. destruct x; cbn; [apply Z.eqb_refl | reflexivity]. Qed.

(** X9. No wrapper is reported as possibly the same volume as itself: its
    instance number always matches itself, present or not. *)
Lemma never_same_volume_as_itself (w : wrapper F) :
  maybe_same_volume_as w w <> Ok true.
Proof.
  intros Htrue. apply maybe_same_volume_as_true in Htrue.
  destruct Htrue as (_ & Hno & _).
  unfold instance_numbers_match in Hno.
  rewrite option_eqb_Z_refl in Hno. discriminate.
Qed.

Lemma image_shape_mosaic (d : dcm_data F) (csa : csa_header F) (n : N) :
  image_shape (MosaicWrapper d csa n) = None
  \/ exists r c, image_shape (MosaicWrapper d csa n) = Some (Shape3 r c n).
Proof.
  unfold image_shape. cbn [get_dcm].
  destruct (Rows d), (Columns d); eauto.
Qed.

Lemma image_shape_plain (w : wrapper F) :
  is_mosaic w = false ->
  image_shape w = None \/ exists r c, image_shape w = Some (Shape2 r c).
Proof.
  intros Hm. unfold image_shape.
  destruct (Rows (get_dcm w)), (Columns (get_dcm w)); auto.
  destruct w; try discriminate; eauto.
Qed.

Lemma matchers_shape_differ (a b : wrapper F) :
  option_eqb shape_eqb (image_shape a) (image_shape b) = false ->
  matchers_eqb (_get_matchers a) (_get_matchers b) = false.
Proof.
  intros E. unfold matchers_eqb, _get_matchers. rewrite E.
  rewrite andb_false_r. reflexivity.
Qed.

(** X10. A mosaic wrapper and a wrapper of another class are never the same
    volume as soon as one of them has an image shape: the shape tuples have
    three and two entries, so the method returns [False] at its first step,
    in either order and without raising. *)
Lemma mosaic_never_matches_plain (d : dcm_data F) (csa : csa_header F) (n : N)
  (w : wrapper F) :
  is_mosaic w = false ->
  image_shape (MosaicWrapper d csa n) <> None \/ image_shape w <> None ->
  maybe_same_volume_as (MosaicWrapper d csa n) w = Ok false
  /\ maybe_same_volume_as w (MosaicWrapper d csa n) = Ok false.
Proof.
  intros Hm Hsome.
  assert (Hd : option_eqb shape_eqb (image_shape (MosaicWrapper d csa n)) (image_shape w)
               = false
               /\ option_eqb shape_eqb (image_shape w) (image_shape (MosaicWrapper d csa n))
                  = false).
  { destruct (image_shape_mosaic d csa n) as [E1 | (r & c & E1)];
      destruct (image_shape_plain w Hm) as [E2 | (r' & c' & E2)];
      rewrite E1, E2 in *; cbn; auto.
    destruct Hsome as [Hs | Hs]; congruence. }
  destruct Hd as [Hd1 Hd2].
  split; rewrite maybe_same_volume_as_steps.
  - rewrite (matchers_shape_differ _ _ Hd1). reflexivity.
  - rewrite (matchers_shape_differ _ _ Hd2). reflexivity.
Qed.

(** ** Rescaling keeps the layout *)

Lemma pix_mul_layout (data : pixels F) (s : scalar F) :
  pix_shape (pix_mul data s) = pix_shape data
  /\ pix_size (pix_mul data s) = pix_size data
  /\ (is_int_pixels data = false -> is_int_pixels (pix_mul data s) = false).
Proof.
  destruct data as [t a | a | a], s as [k | f]; cbn;
    try destruct (result_type t k); cbn; rewrite ?length_map; auto.
Qed.

Lemma pix_add_layout (data : pixels F) (s : scalar F) :
  pix_shape (pix_add data s) = pix_shape data
  /\ pix_size (pix_add data s) = pix_size data
  /\ (is_int_pixels data = false -> is_int_pixels (pix_add data s) = false).
Proof.
  destruct data as [t a | a | a], s as [k | f]; cbn;
    try destruct (result_type t k); cbn; rewrite ?length_map; auto.
Qed.

Lemma pix_wf_size (data : pixels F) :
  pix_wf data <-> pix_size data = numel (pix_shape data).
Proof. destruct data; cbn; unfold wf_array; tauto. Qed.

(** X12. Whatever slope and intercept the record holds, [_scale_data] keeps
    the shape and the number of entries of the block, keeps a well-formed
    block well formed, and never turns a float block into an integer one. *)
Lemma scale_data_keeps_layout (w : wrapper F) (data : pixels F) :
  pix_shape (_scale_data w data) = pix_shape data
  /\ pix_size (_scale_data w data) = pix_size data
  /\ (pix_wf data -> pix_wf (_scale_data w data))
  /\ (is_int_pixels data = false -> is_int_pixels (_scale_data w data) = false).
Proof.
  assert (Hcore : pix_shape (_scale_data w data) = pix_shape data
                  /\ pix_size (_scale_data w data) = pix_size data
                  /\ (is_int_pixels data = false ->
                      is_int_pixels (_scale_data w data) = false)).
  { unfold _scale_data.
    destruct (pix_mul_layout data (rescale_slope w)) as (M1 & M2 & M3).
    destruct (pix_add_layout data (rescale_intercept w)) as (A1 & A2 & A3).
    destruct (pix_add_layout (pix_mul data (rescale_slope w)) (rescale_intercept w))
      as (B1 & B2 & B3).
    destruct (scalar_eqb (rescale_slope w) (SInt 1));
      destruct (scalar_eqb (rescale_intercept w) (SInt 0)); cbn [negb];
      repeat split; auto; congruence. }
  destruct Hcore as (H1 & H2 & H3).
  repeat split; auto.
  rewrite !pix_wf_size. congruence.
Qed.

(** ** Mosaic data: every outcome *)

Lemma mosaic_get_data_sized (d : dcm_data F) (csa : csa_header F) (n : N)
  (rows cols : N) (data : pixels F) (nr nc : nat) :
  Rows d = Some rows -> Columns d = Some cols ->
  pixel_array d = Some data ->
  as_dim (of_N rows / of_N (mosaic_size_of n)) = Ok nr ->
  as_dim (of_N cols / of_N (mosaic_size_of n)) = Ok nc ->
  (pix_size data
   = (N.to_nat (mosaic_size_of n) * nr * (N.to_nat (mosaic_size_of n) * nc))%nat ->
   exists stack,
     get_data (MosaicWrapper d csa n)
     = Ok (_scale_data (MosaicWrapper d csa n) stack)
     /\ pix_shape stack = [N.to_nat n; nr; nc]
     /\ pix_wf stack
     /\ is_int_pixels stack = is_int_pixels data)
  /\ (pix_size data
      <> (N.to_nat (mosaic_size_of n) * nr * (N.to_nat (mosaic_size_of n) * nc))%nat ->
      get_data (MosaicWrapper d csa n) = Raise ValueError).
Proof.
  intros Hr Hc Hp Hnr Hnc.
  cbn [get_data]. unfold image_shape, get_pixel_array.
  cbn [get_dcm]. rewrite Hr, Hc, Hp. cbn [bind]. rewrite Hnr, Hnc. cbn [bind].
  pose proof (tile_count_fits n) as Hfit.
  split; intros Hsize.
  - destruct data as [t a | a | a]; cbn [pix_size] in Hsize;
      destruct (proj1 (unmosaic_ok_iff _ nr nc (N.to_nat n) a) Hsize)
        as (v3 & Hv3 & Hsh & Hwf);
      rewrite Nat.min_l in Hsh by exact Hfit;
      cbn [pix_unmosaic]; rewrite Hv3; cbn [bind].
    + exists (IntPixels t v3). repeat split; assumption.
    + exists (FloatPixels v3). repeat split; assumption.
    + exists (ObjPixels v3). repeat split; assumption.
  - destruct data as [t a | a | a]; cbn [pix_size] in Hsize;
      cbn [pix_unmosaic];
      rewrite (proj2 (unmosaic_ok_iff _ nr nc (N.to_nat n) a) Hsize);
      reflexivity.
Qed.

(** X11. The outcomes of [MosaicWrapper.get_data]. Without [Rows] or
    [Columns] it raises the image-shape [WrapperError], pixel data or not;
    with them and without pixel data it raises the missing-data
    [WrapperError]; with both, once the two tile extents convert to
    dimensions, it succeeds exactly when the block has
    [mosaic_size^2 * n_rows * n_cols] entries, whatever shape the block
    announces, and raises [ValueError] otherwise. On success the stack has
    shape [(n_mosaic, n_rows, n_cols)], is well formed and has the numeric
    type of the block. *)
Lemma mosaic_get_data_outcomes (d : dcm_data F) (csa : csa_header F) (n : N) :
  (Rows d = None \/ Columns d = None ->
   get_data (MosaicWrapper d csa n)
   = Raise (WrapperError "No valid information for image shape")) /\
  (forall rows cols, Rows d = Some rows -> Columns d = Some cols ->
     pixel_array d = None ->
     get_data (MosaicWrapper d csa n)
     = Raise (WrapperError "Cannot find data in DICOM")) /\
  (forall rows cols data nr nc,
     Rows d = Some rows -> Columns d = Some cols ->
     pixel_array d = Some data ->
     as_dim (of_N rows / of_N (mosaic_size_of n)) = Ok nr ->
     as_dim (of_N cols / of_N (mosaic_size_of n)) = Ok nc ->
     (pix_size data
      = (N.to_nat (mosaic_size_of n) * nr * (N.to_nat (mosaic_size_of n) * nc))%nat ->
      exists stack,
        get_data (MosaicWrapper d csa n)
        = Ok (_scale_data (MosaicWrapper d csa n) stack)
        /\ pix_shape stack = [N.to_nat n; nr; nc]
        /\ pix_wf stack
        /\ is_int_pixels stack = is_int_pixels data)
     /\ (pix_size data
         <> (N.to_nat (mosaic_size_of n) * nr * (N.to_nat (mosaic_size_of n) * nc))%nat ->
         get_data (MosaicWrapper d csa n) = Raise ValueError)).
Proof.
  split; [|split].
  - intros Hnone. cbn [get_data]. unfold image_shape. cbn [get_dcm].
    destruct Hnone as [E | E]; rewrite E; [|destruct (Rows d)]; reflexivity.
  - intros rows cols Hr Hc Hp. cbn [get_data]. unfold image_shape, get_pixel_array.
    cbn [get_dcm]. rewrite Hr, Hc, Hp. reflexivity.
  - intros rows cols data nr nc Hr Hc Hp Hnr Hnc.
    exact (mosaic_get_data_sized d csa n Hr Hc Hp Hnr Hnc).
Qed.

(** ** Diffusion parameters: every outcome *)

Context {U : NumericUtils F}.

Lemma rotation_matrix_raises_only_assertion (w : wrapper F) (e : exn) :
  rotation_matrix w = Raise e -> e = AssertionError.
Proof.
  unfold rotation_matrix.
  destruct (image_orient_patient w); [|discriminate].
  destruct (slice_normal w); [|discriminate].
  destruct (is_rotation _); [discriminate|].
  intros E. injection E as <-. reflexivity.
Qed.

Lemma b_matrix_cases (w : wrapper F) :
  (b_matrix w = Ok None
   <-> csa_of w = None
       \/ exists hdr, csa_of w = Some hdr
                      /\ csa_b_matrix hdr = None /\ csa_b_value hdr = None) /\
  (b_matrix w = Raise AttributeError
   <-> exists hdr B, csa_of w = Some hdr /\ csa_b_matrix hdr = Some B
                     /\ rotation_matrix w = Ok None) /\
  (b_matrix w = Raise AssertionError
   <-> exists hdr B, csa_of w = Some hdr /\ csa_b_matrix hdr = Some B
                     /\ rotation_matrix w = Raise AssertionError) /\
  (forall e, b_matrix w = Raise e ->
     e = CSAError "No B matrix and b value != 0"
     \/ e = AttributeError \/ e = AssertionError).
Proof.
  unfold b_matrix.
  destruct (csa_of w) as [hdr|].
  2:{ repeat split; try discriminate; auto.
      - intros (hdr & B & E & _). discriminate.
      - intros (hdr & B & E & _). discriminate. }
  destruct (csa_b_matrix hdr) as [B|] eqn:EB.
  - destruct (rotation_matrix w) as [[R|]|e] eqn:ER; cbn [bind].
    + repeat split; try discriminate.
      * intros [E | (h & E & E1 & _)]; [discriminate|].
        injection E as <-. congruence.
      * intros (h & B' & _ & _ & E). discriminate.
      * intros (h & B' & _ & _ & E). discriminate.
    + repeat split; try discriminate; auto.
      * intros [E | (h & E & E1 & _)]; [discriminate|].
        injection E as <-. congruence.
      * intros _. exists hdr, B. auto.
      * intros (h & B' & _ & _ & E). discriminate.
      * intros e E. injection E as <-. auto.
    + pose proof (rotation_matrix_raises_only_assertion w ER) as ->.
      repeat split; try discriminate; auto.
      * intros [E | (h & E & E1 & _)]; [discriminate|].
        injection E as <-. congruence.
      * intros (h & B' & _ & _ & E). discriminate.
      * intros _. exists hdr, B. auto.
      * intros e E. injection E as <-. auto.
  - destruct (csa_b_value hdr) as [bval|] eqn:EV.
    + destruct (scalar_eqb bval (SInt 0)); cbn [negb];
        repeat split; try discriminate.
      * intros [E | (h & E & _ & E2)]; [discriminate|].
        injection E as <-. congruence.
      * intros (h & B' & E & E1 & _). injection E as <-. congruence.
      * intros (h & B' & E & E1 & _). injection E as <-. congruence.
      * intros [E | (h & E & _ & E2)]; [discriminate|].
        injection E as <-. congruence.
      * intros (h & B' & E & E1 & _). injection E as <-. congruence.
      * intros (h & B' & E & E1 & _). injection E as <-. congruence.
      * intros e E. injection E as <-. auto.
    + repeat split; try discriminate.
      * intros _. right. exists hdr. auto.
      * intros (h & B' & E & E1 & _). injection E as <-. congruence.
      * intros (h & B' & E & E1 & _). injection E as <-. congruence.
Qed.


End FurtherProperties.

(** ** Slices of one series *)

Section SameSeries.

Context {F : Type} `{Num F}.

Lemma list_eqb_string_refl (l : list string) : list_eqb String.eqb l l = true.
Proof.
  induction l as [|x l IH]; [reflexivity|].
  cbn. rewrite String.eqb_refl, IH. reflexivity.
Qed.

(** A plain wrapper and its repositioned copy have equal discriminators. *)
Lemma matchers_eqb_reposition (d : dcm_data F) (ipp : vec3 F) (instance : option Z) :
  matchers_eqb (_get_matchers (Wrapper d))
               (_get_matchers (Wrapper (reposition d ipp instance))) = true.
Proof.
  unfold matchers_eqb, _get_matchers, image_shape.
  cbn [get_dcm reposition Rows Columns SeriesNumber ImageType SequenceName
       SeriesInstanceID EchoNumbers].
  repeat (apply andb_true_intro; split).
  - destruct (SeriesNumber d); cbn; [apply Z.eqb_refl|reflexivity].
  - destruct (Rows d), (Columns d); cbn; try reflexivity.
    rewrite !N.eqb_refl. reflexivity.
  - destruct (ImageType d); cbn; [apply list_eqb_string_refl|reflexivity].
  - destruct (SequenceName d); cbn; [apply String.eqb_refl|reflexivity].
  - destruct (SeriesInstanceID d); cbn; [apply String.eqb_refl|reflexivity].
  - destruct (EchoNumbers d); cbn; [apply Z.eqb_refl|reflexivity].
Qed.

End SameSeries.

(** ** Exact arithmetic

    The statements of this part interpret the arithmetic over the rationals
    ([NumQ]); [==] is equality of rationals. *)

Section ExactArithmetic.

Local Open Scope Q_scope.

Ltac unfold_geometry :=
  cbv [dot3 transpose3 inner3 m3row m3col m3get v3get assemble_rotation
       cross cross_of_iop m32col mat3_list vec3_list eye3 app
       fadd fsub fmul fdiv fabs of_Z of_N lit NumQ].

Lemma isclose_Q_equal (rtol atol x y : Q) :
  0 <= rtol -> 0 <= atol -> x == y ->
  @isclose Q NumQ rtol atol x y = true.
Proof.
  intros Hr Ha Hxy. unfold isclose.
  cbv [isfinite fleb fabs fsub fadd fmul NumQ andb].
  apply Qle_bool_iff. rewrite !Qred_correct.
  assert (E : x - y == 0) by (rewrite Hxy; ring).
  rewrite E. cbn [Qabs Z.abs Qnum Qden].
  pose proof (Qabs_nonneg y) as Hy.
  assert (0 <= rtol * Qabs y) by (apply Qmult_le_0_compat; assumption).
  change (Qabs 0) with 0. lra.
Qed.

Lemma all2_isclose_Q (rtol atol : Q) (xs ys : list Q) :
  0 <= rtol -> 0 <= atol -> Forall2 Qeq xs ys ->
  @allclose Q NumQ rtol atol xs ys = true.
Proof.
  intros Hr Ha HF. unfold allclose.
  induction HF as [|x y xs ys Hxy HF IH]; [reflexivity|].
  cbn [all2]. rewrite (isclose_Q_equal Hr Ha Hxy), IH. reflexivity.
Qed.

Lemma Forall2_Qeq_refl (l : list Q) : Forall2 Qeq l l.
Proof. induction l; constructor; [reflexivity|assumption]. Qed.

Lemma tolerances_nonneg :
  0 <= @default_rtol Q NumQ /\ 0 <= @default_atol Q NumQ
  /\ 0 <= @lit Q NumQ (1 # 1000000).
Proof. repeat split; vm_compute; discriminate. Qed.

(** The rows of the matrix built from two orthonormal vectors and their cross
    product are orthonormal too. *)
Lemma rows_orthonormal_Q (a0 a1 a2 b0 b1 b2 : Q) :
  a0 * a0 + a1 * a1 + a2 * a2 == 1 ->
  b0 * b0 + b1 * b1 + b2 * b2 == 1 ->
  a0 * b0 + a1 * b1 + a2 * b2 == 0 ->
  Forall2 Qeq
    (mat3_list (@eye3 Q NumQ))
    (mat3_list
       (dot3 (assemble_rotation ((a0, b0), (a1, b1), (a2, b2))
                (cross_of_iop ((a0, b0), (a1, b1), (a2, b2))))
             (transpose3
                (assemble_rotation ((a0, b0), (a1, b1), (a2, b2))
                   (cross_of_iop ((a0, b0), (a1, b1), (a2, b2))))))).
Proof.
  intros Haa Hbb Hab. unfold_geometry.
  repeat constructor; rewrite !Qred_correct; unfold inject_Z; nsatz.
Qed.


(** The slice indicator of a plain wrapper is the position against the cross
    product of the two direction vectors. *)
Lemma slice_indicator_exact (d : dcm_data Q) (a0 a1 a2 b0 b1 b2 p0 p1 p2 : Q) :
  ImageOrientationPatient d = Some (a0, a1, a2, b0, b1, b2) ->
  ImagePositionPatient d = Some (p0, p1, p2) ->
  exists s,
    slice_indicator (Wrapper d) = Some s
    /\ s == p0 * (a1 * b2 - a2 * b1) + p1 * (a2 * b0 - a0 * b2)
            + p2 * (a0 * b1 - a1 * b0).
Proof.
  intros Hi Hp.
  unfold slice_indicator, slice_normal, image_orient_patient, image_position.
  cbn [get_dcm csa_of]. rewrite Hi, Hp.
  eexists. split; [reflexivity|].
  unfold_geometry. rewrite !Qred_correct. reflexivity.
Qed.




(** *** Tile extents as dimensions *)

Lemma Qtrunc_floor (q : Q) : 0 <= q -> Qtrunc q = Qfloor q.
Proof.
  destruct q as [a b]. unfold Qle, Qtrunc, Qfloor. cbn.
  intros Ha. apply Z.quot_div_nonneg; lia.
Qed.

Lemma Qfloor_quotient (a b : N) :
  b <> 0%N ->
  Qfloor (inject_Z (Z.of_N a) / inject_Z (Z.of_N b)) = Z.of_N (a / b).
Proof.
  intros Hb. rewrite N2Z.inj_div.
  destruct b as [|p]; [congruence|].
  unfold Qdiv, Qinv, inject_Z, Qmult, Qfloor. cbn.
  rewrite Z.mul_1_r. reflexivity.
Qed.

(** The quotient of two extents, handed to [reshape], is their integer
    quotient. *)
Lemma as_dim_quotient (a b : N) :
  b <> 0%N ->
  @as_dim Q NumQ (fdiv (of_N a) (of_N b)) = Ok (N.to_nat (a / b)).
Proof.
  intros Hb. unfold as_dim. cbv [to_int fdiv of_N of_Z NumQ].
  assert (Hq : 0 <= inject_Z (Z.of_N a) / inject_Z (Z.of_N b)).
  { apply Qle_shift_div_l.
    - unfold Qlt, inject_Z. cbn. lia.
    - unfold Qle, inject_Z. cbn. lia. }
  rewrite Qtrunc_floor by (rewrite Qred_correct; exact Hq).
  rewrite (Qfloor_comp _ _ (Qred_correct _)), (Qfloor_quotient a Hb).
  replace (Z.of_N (a / b) <? 0)%Z with false
    by (symmetry; apply Z.ltb_ge; apply N2Z.is_nonneg).
  f_equal. rewrite <- Z_N_nat, N2Z.id. reflexivity.
Qed.


End ExactArithmetic.

(** ** Field access *)

Section FieldAccess.

Context {F : Type} `{Num F}.

(** X19. The two ways of reading a field agree: [self[key]] raises
    [KeyError] exactly when [self.get(key, default)] falls back to its
    default whatever the default is, and when [self[key]] returns a value
    [get] returns the same value and ignores the default.
    [get_pixel_array] is [self['pixel_array']] with the [KeyError] turned
    into a [WrapperError]. *)
Lemma getitem_get_agree (w : wrapper F) (key : string) :
  (getitem w key = KeyError key <-> forall default, get w key default = default)
  /\ (forall v, getitem w key = Found v -> forall default, get w key default = v)
  /\ get_pixel_array w
     = match getitem w "pixel_array" with
       | Found (VPixels data) => Ok data
       | _ => Raise (WrapperError "Cannot find data in DICOM")
       end.
Proof.
  unfold getitem, get. split; [|split].
  - destruct (dcm_getattr (get_dcm w) key) as [v|]; split; try discriminate; auto.
    intros Hd. pose proof (Hd VNone) as E1. pose proof (Hd (VInt 0)) as E2.
    congruence.
  - intros v. destruct (dcm_getattr (get_dcm w) key) as [v'|]; [|discriminate].
    intros E. injection E as <-. reflexivity.
  - unfold get_pixel_array, dcm_getattr. cbn.
    destruct (pixel_array (get_dcm w)); reflexivity.
Qed.

End FieldAccess.

(** * Evaluations of the further properties *)

(** X4 on equal, absent and different instance numbers. *)
Lemma none_matcher_decides_equality_witness :
  none_matcher (Some 3%Z) (Some 3%Z) (fun x y => Ok (Z.eqb x y)) = Ok true
  /\ none_matcher (@None Z) None (fun x y => Ok (Z.eqb x y)) = Ok true
  /\ none_matcher None (Some 5%Z) (fun x y => Ok (Z.eqb x y)) = Ok false.
Proof.
  split; [|split].
  - exact (proj2 (proj1 (none_matcher_decides_equality (Some 3%Z) (Some 3%Z)))
             eq_refl).
  - exact (proj2 (proj1 (none_matcher_decides_equality None None)) eq_refl).
  - apply (proj2 (proj1 (proj2 (none_matcher_decides_equality None (Some 5%Z))))).
    discriminate.
Defined.



(** X8 on a list of a single entry. *)
Lemma ice_matcher_first_two_witness :
  _ice_matcher ["X"] ["X"; "1"; "1"] = Raise IndexError.
Proof.
  apply (proj2 ice_matcher_first_two). left. cbn. lia.
Defined.

(** X10 on the mosaic of three tiles against an axial slice. *)
Lemma mosaic_never_matches_plain_witness :
  maybe_same_volume_as mosaic_4x2 slice_good = Ok false
  /\ maybe_same_volume_as slice_good mosaic_4x2 = Ok false.
Proof.
  apply (mosaic_never_matches_plain (get_dcm mosaic_4x2) empty_csa 3 slice_good eq_refl).
  left. discriminate.
Defined.

(** X11 on the header of 4 rows and 2 columns with three tiles: without
    extents, without pixels, with the eight pixels announced as one row, and
    with six pixels only. *)
Lemma mosaic_get_data_outcomes_witness :
  get_data (MosaicWrapper (block_record None (Some 2%N) None None) empty_csa 3)
  = Raise (WrapperError "No valid information for image shape")
  /\ get_data (MosaicWrapper (block_record (Some 4%N) (Some 2%N) None None) empty_csa 3)
     = Raise (WrapperError "Cannot find data in DICOM")
  /\ (exists stack,
        get_data (MosaicWrapper
                    (block_record (Some 4%N) (Some 2%N) (Some packed_1x8) None)
                    empty_csa 3)
        = Ok (_scale_data
                (MosaicWrapper
                   (block_record (Some 4%N) (Some 2%N) (Some packed_1x8) None)
                   empty_csa 3) stack)
        /\ pix_shape stack = [3; 2; 1]%nat
        /\ pix_wf stack
        /\ is_int_pixels stack = true)
  /\ get_data (MosaicWrapper
                 (block_record (Some 4%N) (Some 2%N) (Some packed_3x2) None)
                 empty_csa 3)
     = Raise ValueError.
Proof.
  assert (H2 : @as_dim float _ (fdiv (of_N 4) (of_N (mosaic_size_of 3))) = Ok 2%nat)
    by (vm_compute; reflexivity).
  assert (H1 : @as_dim float _ (fdiv (of_N 2) (of_N (mosaic_size_of 3))) = Ok 1%nat)
    by (vm_compute; reflexivity).
  split; [|split; [|split]].
  - exact (proj1 (mosaic_get_data_outcomes
                    (block_record None (Some 2%N) None None) empty_csa 3)
             (or_introl eq_refl)).
  - exact (proj1 (proj2 (mosaic_get_data_outcomes
                           (block_record (Some 4%N) (Some 2%N) None None) empty_csa 3))
             4%N 2%N eq_refl eq_refl eq_refl).
  - exact (proj1 (proj2 (proj2 (mosaic_get_data_outcomes
                           (block_record (Some 4%N) (Some 2%N) (Some packed_1x8) None)
                           empty_csa 3))
                    4%N 2%N packed_1x8 2%nat 1%nat
                    eq_refl eq_refl eq_refl H2 H1)
             eq_refl).
  - apply (proj2 (proj2 (proj2 (mosaic_get_data_outcomes
                           (block_record (Some 4%N) (Some 2%N) (Some packed_3x2) None)
                           empty_csa 3))
                    4%N 2%N packed_3x2 2%nat 1%nat
                    eq_refl eq_refl eq_refl H2 H1)).
    cbn. lia.
Defined.

(** X12 on the 2 x 2 integer block under slope 2 and intercept 10. *)
Lemma scale_data_keeps_layout_witness :
  pix_shape (_scale_data (Wrapper (pixel_record (Some (SInt 2)) (Some (SInt 10)))) block_2x2)
  = [2; 2]%nat
  /\ pix_wf (_scale_data (Wrapper (pixel_record (Some (SInt 2)) (Some (SInt 10)))) block_2x2).
Proof.
  destruct (scale_data_keeps_layout
              (Wrapper (pixel_record (Some (SInt 2)) (Some (SInt 10)))) block_2x2)
    as (Hs & _ & Hwf & _).
  split; [exact Hs|]. apply Hwf. reflexivity.
Defined.







(** X19 on the record of the 2 x 2 block, for a field it has and one it
    lacks. *)
Lemma getitem_get_agree_witness :
  (forall default, get (Wrapper (pixel_record None None)) "RescaleSlope" default = default)
  /\ (forall default,
        get (Wrapper (pixel_record None None)) "pixel_array" default = VPixels block_2x2).
Proof.
  split.
  - exact (proj1 (proj1 (getitem_get_agree (Wrapper (pixel_record None None))
                           "RescaleSlope"))
             eq_refl).
  - exact (proj1 (proj2 (getitem_get_agree (Wrapper (pixel_record None None))
                           "pixel_array"))
             _ eq_refl).
Defined.
